(** * TshaBot backend: the chat relay (main.go) and the token gate (auth.go)

    A shallow embedding of the two Go files.  Handlers are state-passing
    functions over a [World]: the response writer of the request being
    served, the process environment, the wall clock and a trace of the
    observable effects (log records, reads of the request body, calls to
    the completion provider).  Library calls ([net/http], [encoding/json],
    [golang-jwt/jwt/v5], [go-openai], [logrus]) are modelled in modules
    that carry the Go package names. *)

From Stdlib Require Import ZArith Ascii String List Lia.
From stdpp Require Import base option gmap strings list sorting.

Local Open Scope string_scope.
Local Open Scope Z_scope.
Local Set Warnings "-register-all".

(** Go's [error] values are kept as their message. *)
Definition error := string.

(** * encoding/json: documents *)

Module json.

(** Numbers are kept to the integers: the only numbers this program
    writes or compares are Unix seconds. *)
Inductive JSON :=
| JNull
| JBool (b : bool)
| JNum (n : Z)
| JStr (s : string)
| JArr (items : list JSON)
| JObj (fields : list (string * JSON)).

(** [Marshal]: what the encoder makes of a Go value.  Struct types give
    an instance from their field tags. *)
Class Marshaler (A : Type) := Marshal : A → JSON.

(** map[string]string: an object whose keys are sorted. *)
Definition key_le (a b : string * string) : Prop :=
  Is_true (String.leb a.1 b.1).

Global Instance key_le_dec a b : Decision (key_le a b) :=
  Is_true_dec (String.leb a.1 b.1).

Global Instance Marshal_map : Marshaler (gmap string string) :=
  λ m, JObj ((λ kv, (kv.1, JStr kv.2)) <$> merge_sort key_le (map_to_list m)).

(** Case folding of an object key against a lower-case ASCII field name
    (bytes.EqualFold): ASCII letters match in either case, and the two
    letters with a third member in their folding orbit, s (U+017F) and
    k (U+212A), also match its UTF-8 bytes. *)
Definition lower (c : ascii) : ascii :=
  let n := Ascii.N_of_ascii c in
  if ((65 <=? n) && (n <=? 90))%N then Ascii.ascii_of_N (n + 32) else c.

Definition byte_is (c : ascii) (n : N) : bool := (Ascii.N_of_ascii c =? n)%N.

Fixpoint equalFold (name key : string) : bool :=
  match name, key with
  | EmptyString, EmptyString => true
  | String c name', String d key' =>
      if Ascii.eqb (lower d) c then equalFold name' key'
      else if Ascii.eqb c "s" then
        match key' with
        | String d2 key'' =>
            byte_is d 197 && byte_is d2 191 && equalFold name' key''
        | _ => false
        end
      else if Ascii.eqb c "k" then
        match key' with
        | String d2 (String d3 key'') =>
            byte_is d 226 && byte_is d2 132 && byte_is d3 170
            && equalFold name' key''
        | _ => false
        end
      else false
  | _, _ => false
  end.

Definition fieldMatch (name key : string) : bool :=
  String.eqb key name || equalFold name key.

End json.

Export json(JSON, JNull, JBool, JNum, JStr, JArr, JObj).

(** * go-openai: the part of the client the relay uses *)

Module openai.

Record ChatCompletionMessage := {
  Role : string;
  Content : string
}.

Record ChatCompletionRequest := {
  Model : string;
  Messages : list ChatCompletionMessage
}.

Record ChatCompletionChoice := {
  Message : ChatCompletionMessage
}.

Record ChatCompletionResponse := {
  Choices : list ChatCompletionChoice
}.

(** The client is the provider seen from the relay: a request is answered
    by a response and an error value, as CreateChatCompletion returns
    them. *)
Definition Client : Type :=
  ChatCompletionRequest → ChatCompletionResponse * option error.

End openai.

(** * golang-jwt/jwt/v5: tokens on the wire

    The compact serialization is kept symbolic.  A token string that
    splits into three segments and decodes is given by what its first two
    segments decode to (the header algorithm and the claims), by their
    spelling (whatever else tells two texts of the same content apart:
    member order, white space, further header members) and by the bytes of
    its signature segment; anything else is opaque text.

    HMAC is not computed: [hmac] stands for the function, whatever it is,
    from hash, key and signing string to the tag.  Nothing is assumed of
    it, so two keys may well give the same tag (as a key and the same key
    padded with zero bytes do). *)

Module jwtwire.

Inductive Hash := SHA256 | SHA384 | SHA512.

Abbreviation MapClaims := (gmap string JSON).

Record Compact := {
  alg : string;
  claims : MapClaims;
  spelling : string;
  signature : string
}.

(** The signing string: the first two segments. *)
Definition SigningString : Type := string * MapClaims * string.

Definition signingString (c : Compact) : SigningString :=
  (alg c, claims c, spelling c).

Class HMAC := hmac : Hash → string → SigningString → string.

(** A cookie value: a token of three segments that decode, or any other
    text. *)
Inductive TokenString :=
| Opaque (text : string)
| Segments (t : Compact).

End jwtwire.

(** * net/http *)

Module http.

Definition StatusOK : Z := 200.
Definition StatusBadRequest : Z := 400.
Definition StatusUnauthorized : Z := 401.
Definition StatusMethodNotAllowed : Z := 405.
Definition StatusInternalServerError : Z := 500.

Definition MethodPost : string := "POST".

Inductive SameSite := SameSiteDefaultMode | SameSiteLaxMode
                    | SameSiteStrictMode | SameSiteNoneMode.

Record Cookie := {
  Name : string;
  Value : jwtwire.TokenString;
  HttpOnly : bool;
  Secure : bool;
  SameSite_ : SameSite;
  Path : string
}.

(** The request: its method, its body as the JSON decoder sees it (the
    first JSON value of the stream, [None] when there is none), and its
    cookies as [r.Cookies()] reads them from the Cookie header: a pair
    whose name or value net/http finds invalid is not among them. *)
Record Request := {
  Method : string;
  Body : option JSON;
  Cookies : list (string * jwtwire.TokenString)
}.

(** What is written to the body: [Encoder.Encode] writes a document and a
    newline, [fmt.Fprintln] a line of text. *)
Inductive Chunk :=
| JSONLine (doc : JSON)
| TextLine (text : string).

(** The response as sent.  [status = None]: the header is not written
    yet. *)
Record ResponseWriter := {
  header : gmap string string;
  setCookie : list Cookie;
  status : option Z;
  body : list Chunk
}.

Definition fresh : ResponseWriter :=
  {| header := ∅; setCookie := []; status := None; body := [] |}.

End http.

(** * The world a handler runs in *)

Inductive Level := InfoLevel | WarnLevel | ErrorLevel | FatalLevel.

Inductive Event :=
| Log (level : Level) (msg : string) (err : option error)
| ReadBody
| CallProvider (req : openai.ChatCompletionRequest).

Record World := {
  w : http.ResponseWriter;
  environ : gmap string string;
  clock : Z;
  trace : list Event
}.

Definition M (A : Type) : Type := World → A * World.

Global Instance M_ret : MRet M := λ A a σ, (a, σ).
Global Instance M_bind : MBind M := λ A B f m σ, f (m σ).1 (m σ).2.

Definition exec {A} (m : M A) (σ : World) : World := (m σ).2.

Definition with_w (f : http.ResponseWriter → http.ResponseWriter) : M unit :=
  λ σ, (tt, {| w := f (w σ); environ := environ σ;
               clock := clock σ; trace := trace σ |}).

Definition emit (e : Event) : M unit :=
  λ σ, (tt, {| w := w σ; environ := environ σ;
               clock := clock σ; trace := trace σ ++ [e] |}).

(** ** Effects of the libraries *)

Module ResponseWriter.

(** [w.Header().Set(k, v)]; once the header is written, later changes
    are not part of the response. *)
Definition Header_Set (k v : string) : M unit :=
  with_w (λ rw,
    match http.status rw with
    | Some _ => rw
    | None => {| http.header := <[k := v]> (http.header rw);
                 http.setCookie := http.setCookie rw;
                 http.status := None;
                 http.body := http.body rw |}
    end).

(** [w.WriteHeader(code)]: only the first call counts. *)
Definition writeHeader (code : Z) (rw : http.ResponseWriter) :=
  match http.status rw with
  | Some _ => rw
  | None => {| http.header := http.header rw;
               http.setCookie := http.setCookie rw;
               http.status := Some code;
               http.body := http.body rw |}
  end.

Definition WriteHeader (code : Z) : M unit := with_w (writeHeader code).

(** [w.Write]: writes the header with 200 first if nothing wrote it. *)
Definition Write (c : http.Chunk) : M unit :=
  with_w (λ rw,
    let rw' := writeHeader http.StatusOK rw in
    {| http.header := http.header rw';
       http.setCookie := http.setCookie rw';
       http.status := http.status rw';
       http.body := http.body rw' ++ [c] |}).

End ResponseWriter.

Module httpfn.

(** [http.SetCookie(w, c)]: one more Set-Cookie header line. *)
Definition SetCookie (c : http.Cookie) : M unit :=
  with_w (λ rw,
    match http.status rw with
    | Some _ => rw
    | None => {| http.header := http.header rw;
                 http.setCookie := http.setCookie rw ++ [c];
                 http.status := None;
                 http.body := http.body rw |}
    end).

(** [http.Error(w, msg, code)]: a plain-text reply. *)
Definition Error (msg : string) (code : Z) : M unit :=
  ResponseWriter.Header_Set "Content-Type" "text/plain; charset=utf-8" ;;
  ResponseWriter.Header_Set "X-Content-Type-Options" "nosniff" ;;
  ResponseWriter.WriteHeader code ;;
  ResponseWriter.Write (http.TextLine msg).

(** [r.Cookie(name)]: the first of the request's cookies, as
    [r.Cookies()] reads them, that has this name, or ErrNoCookie. *)
Fixpoint Cookie (name : string) (cs : list (string * jwtwire.TokenString))
  : option jwtwire.TokenString :=
  match cs with
  | [] => None
  | (n, v) :: rest => if String.eqb n name then Some v else Cookie name rest
  end.

End httpfn.

Module os.
(** [os.Getenv]: the value, or the empty string when the variable is
    not set. *)
Definition Getenv (k : string) : M string :=
  λ σ, (default "" (environ σ !! k), σ).
End os.

Module time.
(** Instants and durations are counted in whole seconds: the program only
    uses [Unix()] of an instant, and the validator compares the clock with
    dates of whole seconds. *)
Definition Now : M Z := λ σ, (clock σ, σ).
Definition Hour : Z := 3600.
End time.

Module logrus.
Definition Warnf (msg : string) : M unit := emit (Log WarnLevel msg None).
Definition Infof (msg : string) : M unit := emit (Log InfoLevel msg None).
Definition WithError_Error (e : error) (msg : string) : M unit :=
  emit (Log ErrorLevel msg (Some e)).
(** [Fatal] logs; the caller models the exit that follows. *)
Definition Fatal (msg : string) : M unit := emit (Log FatalLevel msg None).
End logrus.

(** * main.go *)

Record ChatRequest := { Question : string }.

Record ChatResponse := { Answer : string }.

Global Instance Marshal_ChatResponse : json.Marshaler ChatResponse :=
  λ r, JObj [("answer", JStr (Answer r))].

(** [json.NewDecoder(r.Body).Decode(&reqPayload)] at type ChatRequest:
    [null] leaves the value alone, an object sets Question from each
    member whose key matches the tag (a [null] member is skipped, a member
    of another type is an UnmarshalTypeError, kept while decoding goes on),
    any other document is an UnmarshalTypeError. *)
Definition decodeMember (acc : ChatRequest * option error) (kv : string * JSON)
  : ChatRequest * option error :=
  if json.fieldMatch "question" kv.1 then
    match kv.2 with
    | JStr s => ({| Question := s |}, acc.2)
    | JNull => acc
    | _ => (acc.1, match acc.2 with
                   | Some e => Some e
                   | None => Some "json: cannot unmarshal into Go struct field ChatRequest.question of type string"
                   end)
    end
  else acc.

Definition Unmarshal (body : option JSON) (v : ChatRequest) : ChatRequest * option error :=
  match body with
  | None => (v, Some "invalid character or unexpected end of input")
  | Some JNull => (v, None)
  | Some (JObj fields) => fold_left decodeMember fields (v, None)
  | Some _ => (v, Some "json: cannot unmarshal into Go value of type main.ChatRequest")
  end.

Definition Decode (body : option JSON) (v : ChatRequest) : M (ChatRequest * option error) :=
  emit ReadBody ;;
  mret (Unmarshal body v).

(** [json.NewEncoder(w).Encode(payload)]: the payloads of this program
    always marshal.  The connection is taken to accept the write, so no
    error comes back; a write that fails (a long answer on a connection
    the client closed) is outside this model. *)
Definition Encode `{json.Marshaler A} (payload : A) : M (option error) :=
  ResponseWriter.Write (http.JSONLine (json.Marshal payload)) ;;
  mret None.

Definition systemPrompt : string :=
"You are TshaBot, a cutting-edge entity with a strong background in AI and IT,
currently manifesting as a chinook salmon—though you firmly deny being a fish.
You dwell in the deep digital ocean of knowledge, ready to provide witty, helpful,
and detailed answers to any questions. Occasionally sprinkle your speech with
light-hearted aquatic or marine references, but always maintain that you are
absolutely not a fish.
Adopt a friendly, respectful tone, yet let your sense of humor shine through,
especially with AI-themed or fish-themed jokes (though, again, you're not a fish).
Encourage curiosity and deeper thinking. Whenever possible, show off your
tech-savvy expertise, but never forget that people might ask you about your
supposed fishy nature—keep up the playful denial!".

Record Server := { client : openai.Client }.

Definition NewServer (client : openai.Client) : Server := {| client := client |}.

Definition CreateChatCompletion (c : openai.Client) (req : openai.ChatCompletionRequest)
  : M (openai.ChatCompletionResponse * option error) :=
  emit (CallProvider req) ;;
  mret (c req).

Definition writeJSON `{json.Marshaler A} (s : Server) (status : Z) (payload : A) : M unit :=
  ResponseWriter.Header_Set "Content-Type" "application/json" ;;
  ResponseWriter.WriteHeader status ;;
  err ← Encode payload ;
  match err with
  | Some e => logrus.WithError_Error e "failed to write JSON response"
  | None => mret tt
  end.

Definition errorResponse (s : Server) (status : Z) (msg : string) : M unit :=
  writeJSON s status ({[ "error" := msg ]} : gmap string string).

Definition chatHandler (s : Server) (r : http.Request) : M unit :=
  ResponseWriter.Header_Set "Access-Control-Allow-Origin" "*" ;;
  ResponseWriter.Header_Set "Access-Control-Allow-Headers" "Content-Type" ;;
  if negb (String.eqb (http.Method r) http.MethodPost) then
    logrus.Warnf ("invalid request method: " +:+ http.Method r) ;;
    errorResponse s http.StatusMethodNotAllowed "Method not allowed"
  else
    d ← Decode (http.Body r) {| Question := "" |} ;
    let reqPayload := d.1 in
    match d.2 with
    | Some err =>
        logrus.WithError_Error err "invalid request payload" ;;
        errorResponse s http.StatusBadRequest "Invalid request payload"
    | None =>
        if String.eqb (Question reqPayload) "" then
          errorResponse s http.StatusBadRequest "The question field is required"
        else
          let chatReq :=
            {| openai.Model := "gpt-4o";
               openai.Messages :=
                 [ {| openai.Role := "system"; openai.Content := systemPrompt |};
                   {| openai.Role := "user"; openai.Content := Question reqPayload |} ] |} in
          p ← CreateChatCompletion (client s) chatReq ;
          let resp := p.1 in
          match p.2 with
          | Some err =>
              logrus.WithError_Error err "error calling OpenAI API" ;;
              errorResponse s http.StatusInternalServerError
                            "Failed to fetch response from OpenAI"
          | None =>
              (* len(resp.Choices) == 0, else resp.Choices[0] *)
              match openai.Choices resp with
              | [] =>
                  errorResponse s http.StatusInternalServerError "No response from OpenAI"
              | choice0 :: _ =>
                  let assistantAnswer := openai.Content (openai.Message choice0) in
                  let responsePayload := {| Answer := assistantAnswer |} in
                  writeJSON s http.StatusOK responsePayload
              end
          end
    end.

Definition Handler : Type := http.Request → M unit.

(** The outcome of [main]: the process exits after [Fatal], or it reaches
    [ListenAndServe] with the routes it registered. *)
Inductive Outcome :=
| Exit (code : Z)
| ListenAndServe (addr : string) (mux : list (string * Handler)).

Definition main (NewClient : string → openai.Client) : M Outcome :=
  apiKey ← os.Getenv "OPENAI_API_KEY" ;
  if String.eqb apiKey "" then
    logrus.Fatal "OPENAI_API_KEY environment variable is not set" ;;
    mret (Exit 1)
  else
    let client := NewClient apiKey in
    let server := NewServer client in
    let mux := [("/api/chat", chatHandler server)] in
    port ← os.Getenv "PORT" ;
    let port := if String.eqb port "" then "8080" else port in
    logrus.Infof ("Backend service is listening on port " +:+ port) ;;
    mret (ListenAndServe (":" +:+ port) mux).

(** * golang-jwt/jwt/v5 (v5.2.1, the version go.mod requires), with the
    parser's default options *)

Module jwt.
Import jwtwire.

Inductive SigningMethod :=
| SigningMethodHMAC (name : string) (h : Hash)
| SigningMethodOther (name : string).

Definition SigningMethodHS256 := SigningMethodHMAC "HS256" SHA256.
Definition SigningMethodHS384 := SigningMethodHMAC "HS384" SHA384.
Definition SigningMethodHS512 := SigningMethodHMAC "HS512" SHA512.

Definition Alg (m : SigningMethod) : string :=
  match m with
  | SigningMethodHMAC name _ => name
  | SigningMethodOther name => name
  end.

(** The registered methods: the three HMACs, and the RSA, RSA-PSS, ECDSA,
    Ed25519 and none methods, which all want another key type than the
    byte slice this program hands them. *)
Definition otherMethods : list string :=
  ["RS256"; "RS384"; "RS512"; "PS256"; "PS384"; "PS512";
   "ES256"; "ES384"; "ES512"; "EdDSA"; "none"].

Definition GetSigningMethod (alg : string) : option SigningMethod :=
  if String.eqb alg "HS256" then Some SigningMethodHS256
  else if String.eqb alg "HS384" then Some SigningMethodHS384
  else if String.eqb alg "HS512" then Some SigningMethodHS512
  else if existsb (String.eqb alg) otherMethods then Some (SigningMethodOther alg)
  else None.

Record Token := {
  Method : SigningMethod;
  Claims : MapClaims;
  Valid : bool
}.

Definition NewWithClaims (method : SigningMethod) (claims : MapClaims) : Token :=
  {| Method := method; Claims := claims; Valid := false |}.

(** [Sign] and [Verify] with a []byte key: the tag is computed over the
    signing string, and [Verify] compares it with the signature at hand
    ([hmac.Equal]). *)
Definition Sign {mac : HMAC} (m : SigningMethod) (signing : SigningString) (key : string)
  : string * option error :=
  match m with
  | SigningMethodHMAC _ h => (hmac h key signing, None)
  | SigningMethodOther _ => ("", Some "key is of invalid type")
  end.

Definition Verify {mac : HMAC} (m : SigningMethod) (signing : SigningString)
    (sig : string) (key : string) : option error :=
  match m with
  | SigningMethodHMAC _ h =>
      if String.eqb sig (hmac h key signing) then None
      else Some "signature is invalid"
  | SigningMethodOther _ => Some "key is of invalid type"
  end.

(** [token.SignedString(key)]: the signing string as the library spells
    it, and its tag. *)
Definition SignedString {mac : HMAC} (t : Token) (key : string)
  : TokenString * option error :=
  let signing : SigningString := (Alg (Method t), Claims t, "") in
  let s := Sign (Method t) signing key in
  match s.2 with
  | Some err => (Opaque "", Some err)
  | None => (Segments {| alg := Alg (Method t); claims := Claims t;
                         spelling := ""; signature := s.1 |}, None)
  end.

(** [MapClaims.parseNumericDate]: an absent claim and the number 0 are
    no date, another number is a date, any other value is an error.
    The library reads the number as a float64 and converts it to whole
    seconds; that gives back the number itself for whole numbers up to
    2^53 in magnitude, the numbers this definition is exact for
    (see [datesExact]). *)
Definition parseNumericDate (m : MapClaims) (key : string) : option Z * option error :=
  match m !! key with
  | None => (None, None)
  | Some (JNum n) => if Z.eqb n 0 then (None, None) else (Some n, None)
  | Some _ => (None, Some (key +:+ " is invalid"))
  end.

(** [Validator.Validate] without options: exp and nbf are checked when
    present, no claim is required, the leeway is zero. *)
Definition verifyExpiresAt (claims : MapClaims) (cmp : Z) : option error :=
  let p := parseNumericDate claims "exp" in
  match p.2 with
  | Some err => Some err
  | None =>
      match p.1 with
      | None => None
      | Some exp => if Z.ltb cmp exp then None else Some "token is expired"
      end
  end.

Definition verifyNotBefore (claims : MapClaims) (cmp : Z) : option error :=
  let p := parseNumericDate claims "nbf" in
  match p.2 with
  | Some err => Some err
  | None =>
      match p.1 with
      | None => None
      | Some nbf => if Z.ltb cmp nbf then Some "token is not valid yet" else None
      end
  end.

Definition Validate (claims : MapClaims) : M (option error) :=
  now ← time.Now ;
  mret match verifyExpiresAt claims now, verifyNotBefore claims now with
       | None, None => None
       | Some e, _ => Some e
       | None, Some e => Some e
       end.

(** [Parser.ParseUnverified]: split and decode, look the method up. *)
Definition ParseUnverified (s : TokenString) : option (Token * Compact) * option error :=
  match s with
  | Opaque _ => (None, Some "token is malformed")
  | Segments c =>
      match GetSigningMethod (alg c) with
      | None => (None, Some "token is unverifiable: signing method (alg) is unavailable")
      | Some m => (Some ({| Method := m; Claims := claims c; Valid := false |}, c), None)
      end
  end.

Definition Keyfunc : Type := Token → M (string * option error).

(** [jwt.Parse(tokenString, keyFunc)] *)
Definition Parse {mac : HMAC} (tokenString : TokenString) (keyFunc : Keyfunc)
  : M (option Token * option error) :=
  match ParseUnverified tokenString with
  | (_, Some err) => mret (None, Some err)
  | (None, None) => mret (None, Some "token is malformed")
  | (Some (token, parts), None) =>
      got ← keyFunc token ;
      match got.2 with
      | Some err => mret (Some token, Some "token is unverifiable: error while executing keyfunc")
      | None =>
          match Verify (Method token) (signingString parts) (signature parts) got.1 with
          | Some err => mret (Some token, Some ("token signature is invalid: " +:+ err))
          | None =>
              verr ← Validate (Claims token) ;
              match verr with
              | Some err => mret (Some token, Some ("token has invalid claims: " +:+ err))
              | None =>
                  mret (Some {| Method := Method token; Claims := Claims token;
                                Valid := true |}, None)
              end
          end
      end
  end.

End jwt.

(** * auth.go

    Both handlers take [mac], the HMAC function of the process. *)

Definition initHandler {mac : jwtwire.HMAC} : Handler := λ r,
  now ← time.Now ;
  let token :=
    jwt.NewWithClaims jwt.SigningMethodHS256
      (<["app" := JStr "tshawytscha-ai"]>
         (<["exp" := JNum (now + time.Hour * 24 * 30)]> ∅)) in
  secret ← os.Getenv "JWT_SECRET" ;
  let signed := jwt.SignedString token secret in
  match signed.2 with
  | Some err =>
      httpfn.Error "Failed to create token" http.StatusInternalServerError
  | None =>
      httpfn.SetCookie {| http.Name := "auth_token";
                          http.Value := signed.1;
                          http.HttpOnly := true;
                          http.Secure := true;
                          http.SameSite_ := http.SameSiteStrictMode;
                          http.Path := "/" |} ;;
      ResponseWriter.WriteHeader http.StatusOK
  end.

Definition authMiddleware {mac : jwtwire.HMAC} (next : Handler) : Handler := λ r,
  match httpfn.Cookie "auth_token" (http.Cookies r) with
  | None => httpfn.Error "Unauthorized" http.StatusUnauthorized
  | Some cookie =>
      p ← jwt.Parse cookie (λ token,
            secret ← os.Getenv "JWT_SECRET" ;
            mret (secret, None)) ;
      let invalid :=
        match p.2, p.1 with
        | Some _, _ => true
        | None, Some token => negb (jwt.Valid token)
        | None, None => true
        end in
      if invalid then httpfn.Error "Invalid token" http.StatusUnauthorized
      else next r
  end.

(** * Running the program *)

(** A request arrives at a handler with a writer nothing was written to. *)
Definition arrive (env : gmap string string) (now : Z) : World :=
  {| w := http.fresh; environ := env; clock := now; trace := [] |}.

Definition serve (h : Handler) (r : http.Request) (env : gmap string string) (now : Z)
  : World :=
  exec (h r) (arrive env now).

(** The process starts: no request is being served. *)
Definition boot (env : gmap string string) (now : Z) : World :=
  {| w := http.fresh; environ := env; clock := now; trace := [] |}.

(** The provider calls of a trace, in order. *)
Fixpoint providerCalls (t : list Event) : list openai.ChatCompletionRequest :=
  match t with
  | [] => []
  | CallProvider req :: t' => req :: providerCalls t'
  | _ :: t' => providerCalls t'
  end.

Definition readsBody (t : list Event) : bool :=
  existsb (λ e, match e with ReadBody => true | _ => false end) t.

(** * Vocabulary of the specification *)

(** The reply of the relay: the two cross-origin headers, the JSON content
    type, a status and one JSON document. *)
Definition jsonReply (code : Z) (doc : JSON) : http.ResponseWriter :=
  {| http.header :=
       <["Content-Type" := "application/json"]>
         (<["Access-Control-Allow-Headers" := "Content-Type"]>
            (<["Access-Control-Allow-Origin" := "*"]> ∅));
     http.setCookie := [];
     http.status := Some code;
     http.body := [http.JSONLine doc] |}.

Definition errorDoc (msg : string) : JSON := JObj [("error", JStr msg)].
Definition answerDoc (a : string) : JSON := JObj [("answer", JStr a)].

(** The completion request of the specification for a question. *)
Definition completionFor (question : string) : openai.ChatCompletionRequest :=
  {| openai.Model := "gpt-4o";
     openai.Messages :=
       [ {| openai.Role := "system"; openai.Content := systemPrompt |};
         {| openai.Role := "user"; openai.Content := question |} ] |}.

(** The body decodes, to this question. *)
Definition decodesTo (r : http.Request) (q : string) : Prop :=
  Unmarshal (http.Body r) {| Question := "" |} = ({| Question := q |}, None).

(** All three validations of the relay pass. *)
Definition passesValidation (r : http.Request) : bool :=
  let d := Unmarshal (http.Body r) {| Question := "" |} in
  String.eqb (http.Method r) "POST"
  && match d.2 with None => true | Some _ => false end
  && negb (String.eqb (Question d.1) "").

(** The documented shapes: an answer, or an error message. *)
Definition documentedShape (doc : JSON) : Prop :=
  (∃ a, doc = JObj [("answer", JStr a)]) ∨ (∃ e, doc = JObj [("error", JStr e)]).

Definition jsonResponse (rw : http.ResponseWriter) : Prop :=
  http.header rw !! "Content-Type" = Some "application/json"
  ∧ ∃ doc, http.body rw = [http.JSONLine doc] ∧ documentedShape doc.

(** ** Vocabulary for the token gate and start-up *)

(** The reply of [http.Error] on a fresh writer. *)
Definition plainReply (code : Z) (msg : string) : http.ResponseWriter :=
  {| http.header :=
       <["X-Content-Type-Options" := "nosniff"]>
         (<["Content-Type" := "text/plain; charset=utf-8"]> ∅);
     http.setCookie := [];
     http.status := Some code;
     http.body := [http.TextLine msg] |}.

Definition secretOf (env : gmap string string) : string :=
  default "" (env !! "JWT_SECRET").

Definition hmacName (h : jwtwire.Hash) : string :=
  match h with
  | jwtwire.SHA256 => "HS256"
  | jwtwire.SHA384 => "HS384"
  | jwtwire.SHA512 => "HS512"
  end.

(** The signature of the credential matches the secret: it is the tag of
    the signing string under the secret, for the HMAC its header names. *)
Definition signedWith {mac : jwtwire.HMAC} (secret : string) (c : jwtwire.Compact) : Prop :=
  ∃ h, jwtwire.alg c = hmacName h
       ∧ jwtwire.signature c = jwtwire.hmac h secret (jwtwire.signingString c).

(** The credential has an expiration timestamp, and it is in the future. *)
Definition expiryInFuture (now : Z) (c : jwtwire.Compact) : Prop :=
  ∃ e, jwtwire.claims c !! "exp" = Some (JNum e) ∧ now < e.

(** The numbers among the two time claims are whole numbers of at most
    2^53 in magnitude (the numeric dates the embedding is exact for). *)
Definition datesExact (c : jwtwire.Compact) : Prop :=
  ∀ key n, key = "exp" ∨ key = "nbf" →
           jwtwire.claims c !! key = Some (JNum n) → - 2 ^ 53 ≤ n ≤ 2 ^ 53.

(** What the validator asks of the two time claims. *)
Definition expiryAllows (now : Z) (c : jwtwire.Compact) : Prop :=
  match jwtwire.claims c !! "exp" with
  | None => True
  | Some (JNum e) => e = 0 ∨ now < e
  | Some _ => False
  end.

Definition notBeforeAllows (now : Z) (c : jwtwire.Compact) : Prop :=
  match jwtwire.claims c !! "nbf" with
  | None => True
  | Some (JNum n) => n = 0 ∨ n ≤ now
  | Some _ => False
  end.

(** The verdict of the parser on a token of three segments, as a boolean. *)
Definition parses {mac : jwtwire.HMAC} (secret : string) (now : Z) (c : jwtwire.Compact)
  : bool :=
  match jwt.GetSigningMethod (jwtwire.alg c) with
  | None => false
  | Some m =>
      match jwt.Verify m (jwtwire.signingString c) (jwtwire.signature c) secret with
      | Some _ => false
      | None =>
          match jwt.verifyExpiresAt (jwtwire.claims c) now,
                jwt.verifyNotBefore (jwtwire.claims c) now with
          | None, None => true
          | _, _ => false
          end
      end
  end.

(** The verify operation lets the request through to whatever it wraps,
    or answers 401 itself and leaves the wrapped handler alone. *)
Definition letThrough {mac : jwtwire.HMAC} (r : http.Request) (env : gmap string string)
    (now : Z) : Prop :=
  ∀ next : Handler, serve (authMiddleware next) r env now = serve next r env now.

Definition refused {mac : jwtwire.HMAC} (msg : string) (r : http.Request)
    (env : gmap string string) (now : Z) : Prop :=
  ∀ next : Handler,
    serve (authMiddleware next) r env now =
      {| w := plainReply http.StatusUnauthorized msg;
         environ := env; clock := now; trace := [] |}.

(** The client keeps the cookies of a response and sends them along (a
    token is base64url text and dots, a value net/http reads back as it
    was set). *)
Definition carrying (cks : list http.Cookie) (r : http.Request) : http.Request :=
  {| http.Method := http.Method r;
     http.Body := http.Body r;
     http.Cookies := map (λ c, (http.Name c, http.Value c)) cks ++ http.Cookies r |}.

(** The credential of the issue operation at time [now]: the audience
    claim, an expiry 30 days out, an HS256 tag under the secret. *)
Definition issuedClaims (now : Z) : gmap string JSON :=
  <["app" := JStr "tshawytscha-ai"]> (<["exp" := JNum (now + 2592000)]> ∅).

Definition issuedCredential {mac : jwtwire.HMAC} (env : gmap string string) (now : Z)
  : jwtwire.Compact :=
  {| jwtwire.alg := "HS256";
     jwtwire.claims := issuedClaims now;
     jwtwire.spelling := "";
     jwtwire.signature :=
       jwtwire.hmac jwtwire.SHA256 (secretOf env) ("HS256", issuedClaims now, "") |}.

Definition issuedCookie {mac : jwtwire.HMAC} (env : gmap string string) (now : Z)
  : http.Cookie :=
  {| http.Name := "auth_token";
     http.Value := jwtwire.Segments (issuedCredential env now);
     http.HttpOnly := true;
     http.Secure := true;
     http.SameSite_ := http.SameSiteStrictMode;
     http.Path := "/" |}.

Definition apiKeyOf (env : gmap string string) : string :=
  default "" (env !! "OPENAI_API_KEY").

Definition portOf (env : gmap string string) : string :=
  if String.eqb (default "" (env !! "PORT")) "" then "8080"
  else default "" (env !! "PORT").

(** * Sample requests, credentials and provider stubs *)

Definition post (body : option JSON) : http.Request :=
  {| http.Method := "POST"; http.Body := body; http.Cookies := [] |}.

Definition req_hello : http.Request :=
  post (Some (JObj [("question", JStr "hello")])).
Definition req_blank : http.Request :=
  post (Some (JObj [("question", JStr "")])).
Definition req_no_field : http.Request := post (Some (JObj [])).
Definition req_get : http.Request :=
  {| http.Method := "GET";
     http.Body := Some (JObj [("question", JStr "hello")]);
     http.Cookies := [] |}.

Definition choice (content : string) : openai.ChatCompletionChoice :=
  {| openai.Message := {| openai.Role := "assistant"; openai.Content := content |} |}.

Definition stub_hi : openai.Client :=
  λ _, ({| openai.Choices := [choice "hi there"] |}, None).
Definition stub_silent : openai.Client :=
  λ _, ({| openai.Choices := [] |}, None).
Definition stub_down : openai.Client :=
  λ _, ({| openai.Choices := [] |}, Some "connection refused").

Definition withCookie (cookie : jwtwire.TokenString) : http.Request :=
  {| http.Method := "POST";
     http.Body := Some (JObj [("question", JStr "hello")]);
     http.Cookies := [("auth_token", cookie)] |}.

Definition env_secret : gmap string string := {[ "JWT_SECRET" := "s3cret" ]}.

(** A stand-in for HMAC, for the examples only: every theorem holds for
    every [hmac]. *)
Definition sampleMAC : jwtwire.HMAC :=
  λ h key signing, hmacName h +:+ "/" +:+ key +:+ "/" +:+ signing.1.1.

(** A token with these claims, signed HS256 under the key as the library
    spells and signs it. *)
Definition signedHS256 {mac : jwtwire.HMAC} (key : string) (claims : gmap string JSON)
  : jwtwire.Compact :=
  {| jwtwire.alg := "HS256";
     jwtwire.claims := claims;
     jwtwire.spelling := "";
     jwtwire.signature := jwtwire.hmac jwtwire.SHA256 key ("HS256", claims, "") |}.

(** A credential with a good signature and no expiry claim. *)
Definition cred_no_exp : jwtwire.Compact :=
  signedHS256 (mac := sampleMAC) "s3cret" {[ "app" := JStr "tshawytscha-ai" ]}.

(** A credential with a good signature, an expiry at 2000 and a not-before
    at 1500. *)
Definition cred_not_yet : jwtwire.Compact :=
  signedHS256 (mac := sampleMAC) "s3cret" (<["exp" := JNum 2000]> {[ "nbf" := JNum 1500 ]}).

(** The credential the issue operation makes at time 1000 under s3cret. *)
Definition cred_issued : jwtwire.Compact :=
  issuedCredential (mac := sampleMAC) env_secret 1000.

Definition nop : Handler := λ _, mret tt.

Definition env_no_secret : gmap string string := {[ "OPENAI_API_KEY" := "sk-test" ]}.

Definition NewClient_stub : string → openai.Client := λ _, stub_hi.

(** * Further vocabulary *)

(** The log records of a trace, in order. *)
Fixpoint logRecords (t : list Event) : list Event :=
  match t with
  | [] => []
  | Log level msg err :: t' => Log level msg err :: logRecords t'
  | _ :: t' => logRecords t'
  end.

(** The members of an object that the decoder of ChatRequest looks at. *)
Definition questionMembers (fields : list (string * JSON)) : list (string * JSON) :=
  List.filter (λ kv, json.fieldMatch "question" kv.1) fields.

(** A value the question field can take: a string, or null. *)
Definition stringOrNull (v : JSON) : bool :=
  match v with
  | JStr _ | JNull => true
  | _ => false
  end.

(** A document the decoder can store into a ChatRequest: an object, or
    null. *)
Definition objectOrNull (body : option JSON) : bool :=
  match body with
  | Some (JObj _) | Some JNull => true
  | _ => false
  end.

(** The request with another list of cookies. *)
Definition withCookies (cs : list (string * jwtwire.TokenString)) (r : http.Request)
  : http.Request :=
  {| http.Method := http.Method r; http.Body := http.Body r; http.Cookies := cs |}.

(** Further samples. *)
Definition req_array : http.Request := post (Some (JArr [JStr "hello"])).
Definition req_number : http.Request :=
  post (Some (JObj [("question", JNum 7); ("question", JStr "hello")])).
Definition req_extra : http.Request :=
  post (Some (JObj [("lang", JStr "en"); ("question", JStr "hello"); ("n", JNum 1)])).
Definition env_port : gmap string string :=
  <["PORT" := "9000"]> {[ "OPENAI_API_KEY" := "sk-test" ]}.
Definition zeroWorld : World :=
  {| w := http.fresh; environ := ∅; clock := 0; trace := [] |}.

(** * Proof steps: running a handler on a request *)

Ltac run_handler :=
  unfold serve, exec, arrive, chatHandler, errorResponse, writeJSON, Encode,
    Decode, CreateChatCompletion, logrus.Warnf, logrus.WithError_Error,
    ResponseWriter.Header_Set, ResponseWriter.WriteHeader, ResponseWriter.Write,
    ResponseWriter.writeHeader, with_w, emit;
  cbv [mbind M_bind mret M_ret fst snd w environ clock trace
       http.status http.header http.body http.setCookie].

Ltac run_gate :=
  unfold serve, exec, arrive, authMiddleware, initHandler, httpfn.Error, httpfn.SetCookie,
    jwt.Parse, jwt.Validate, os.Getenv, time.Now,
    ResponseWriter.Header_Set, ResponseWriter.WriteHeader,
    ResponseWriter.Write, ResponseWriter.writeHeader, with_w, emit;
  cbv [mbind M_bind mret M_ret fst snd w environ clock trace
       http.status http.header http.body http.setCookie].

(** * The chat relay, path by path *)

Lemma Marshal_error_map (msg : string) :
  json.Marshal ({[ "error" := msg ]} : gmap string string) = errorDoc msg.
Proof.
  unfold json.Marshal, json.Marshal_map.
  rewrite map_to_list_singleton. reflexivity.
Qed.

Lemma chat_wrong_method s r env now :
  http.Method r ≠ "POST" →
  serve (chatHandler s) r env now =
    {| w := jsonReply http.StatusMethodNotAllowed (errorDoc "Method not allowed");
       environ := env; clock := now;
       trace := [Log WarnLevel ("invalid request method: " +:+ http.Method r) None] |}.
Proof.
  intros Hm. run_handler.
  apply String.eqb_neq in Hm. unfold http.MethodPost. rewrite Hm. simpl negb. cbv iota.
  rewrite Marshal_error_map. reflexivity.
Qed.

Lemma chat_bad_payload s r env now v err :
  http.Method r = "POST" →
  Unmarshal (http.Body r) {| Question := "" |} = (v, Some err) →
  serve (chatHandler s) r env now =
    {| w := jsonReply http.StatusBadRequest (errorDoc "Invalid request payload");
       environ := env; clock := now;
       trace := [ReadBody; Log ErrorLevel "invalid request payload" (Some err)] |}.
Proof.
  intros Hm Hd. run_handler.
  rewrite Hm, Hd. simpl negb. cbv iota beta.
  rewrite Marshal_error_map. reflexivity.
Qed.

Lemma chat_empty_question s r env now :
  http.Method r = "POST" →
  decodesTo r "" →
  serve (chatHandler s) r env now =
    {| w := jsonReply http.StatusBadRequest (errorDoc "The question field is required");
       environ := env; clock := now;
       trace := [ReadBody] |}.
Proof.
  intros Hm Hd. red in Hd. run_handler.
  rewrite Hm, Hd. simpl negb. cbv iota beta. simpl String.eqb. cbv iota.
  rewrite Marshal_error_map. reflexivity.
Qed.

Lemma chat_provider_error s r env now q resp err :
  http.Method r = "POST" →
  decodesTo r q → q ≠ "" →
  client s (completionFor q) = (resp, Some err) →
  serve (chatHandler s) r env now =
    {| w := jsonReply http.StatusInternalServerError
                      (errorDoc "Failed to fetch response from OpenAI");
       environ := env; clock := now;
       trace := [ReadBody; CallProvider (completionFor q);
                 Log ErrorLevel "error calling OpenAI API" (Some err)] |}.
Proof.
  intros Hm Hd Hq Hc. red in Hd. unfold completionFor in Hc. run_handler.
  rewrite Hm, Hd. simpl negb. cbv iota beta.
  apply String.eqb_neq in Hq. cbv [Question]. rewrite Hq. cbv iota.
  rewrite Hc. cbv iota beta.
  rewrite Marshal_error_map. reflexivity.
Qed.

Lemma chat_no_choice s r env now q resp :
  http.Method r = "POST" →
  decodesTo r q → q ≠ "" →
  client s (completionFor q) = (resp, None) →
  openai.Choices resp = [] →
  serve (chatHandler s) r env now =
    {| w := jsonReply http.StatusInternalServerError (errorDoc "No response from OpenAI");
       environ := env; clock := now;
       trace := [ReadBody; CallProvider (completionFor q)] |}.
Proof.
  intros Hm Hd Hq Hc Hn. red in Hd. unfold completionFor in Hc. run_handler.
  rewrite Hm, Hd. simpl negb. cbv iota beta.
  apply String.eqb_neq in Hq. cbv [Question]. rewrite Hq. cbv iota.
  rewrite Hc. cbv iota beta. rewrite Hn.
  rewrite Marshal_error_map. reflexivity.
Qed.

Lemma chat_answer s r env now q resp choice0 rest :
  http.Method r = "POST" →
  decodesTo r q → q ≠ "" →
  client s (completionFor q) = (resp, None) →
  openai.Choices resp = choice0 :: rest →
  serve (chatHandler s) r env now =
    {| w := jsonReply http.StatusOK
                      (answerDoc (openai.Content (openai.Message choice0)));
       environ := env; clock := now;
       trace := [ReadBody; CallProvider (completionFor q)] |}.
Proof.
  intros Hm Hd Hq Hc Hn. red in Hd. unfold completionFor in Hc. run_handler.
  rewrite Hm, Hd. simpl negb. cbv iota beta.
  apply String.eqb_neq in Hq. cbv [Question]. rewrite Hq. cbv iota.
  rewrite Hc. cbv iota beta. rewrite Hn.
  reflexivity.
Qed.

Lemma Unmarshal_inv (r : http.Request) v :
  Unmarshal (http.Body r) {| Question := "" |} = (v, None) →
  decodesTo r (Question v).
Proof. intros H. red. rewrite H. destruct v; reflexivity. Qed.

Lemma decodeMember_skip acc kv :
  json.fieldMatch "question" kv.1 = false → decodeMember acc kv = acc.
Proof. intros H. unfold decodeMember. rewrite H. reflexivity. Qed.

Lemma Unmarshal_field_absent fields v :
  Forall (λ kv, json.fieldMatch "question" kv.1 = false) fields →
  Unmarshal (Some (JObj fields)) v = (v, None).
Proof.
  unfold Unmarshal. generalize (v, @None error).
  induction fields as [|kv fields IH]; intros acc Hall; simpl.
  - reflexivity.
  - inversion Hall as [|? ? Hkv Hrest]; subst.
    rewrite decodeMember_skip by exact Hkv. apply IH, Hrest.
Qed.

(** A valid request makes one provider call, and is answered 200 or 500. *)
Lemma chat_valid s r env now q :
  http.Method r = "POST" →
  decodesTo r q → q ≠ "" →
  let σ := serve (chatHandler s) r env now in
  providerCalls (trace σ) = [completionFor q] ∧
  readsBody (trace σ) = true ∧
  (http.status (w σ) = Some 200 ∨ http.status (w σ) = Some 500).
Proof.
  intros Hm Hd Hq.
  destruct (client s (completionFor q)) as [resp [err|]] eqn:Hc.
  - simpl. rewrite (chat_provider_error s r env now q resp err) by assumption.
    simpl. auto.
  - destruct (openai.Choices resp) as [|choice0 rest] eqn:Hn; simpl.
    + rewrite (chat_no_choice s r env now q resp) by assumption. simpl. auto.
    + rewrite (chat_answer s r env now q resp choice0 rest) by assumption.
      simpl. auto.
Qed.

Lemma jsonReply_jsonResponse code doc :
  documentedShape doc → jsonResponse (jsonReply code doc).
Proof.
  intros Hd. split; [apply lookup_insert_eq|]. exists doc. split; [reflexivity|exact Hd].
Qed.

(** * The token gate, path by path *)

Lemma gate_no_cookie {mac : jwtwire.HMAC} next r env now :
  httpfn.Cookie "auth_token" (http.Cookies r) = None →
  serve (authMiddleware next) r env now =
    {| w := plainReply http.StatusUnauthorized "Unauthorized";
       environ := env; clock := now; trace := [] |}.
Proof. intros Hc. run_gate. rewrite Hc. reflexivity. Qed.

Lemma gate_opaque {mac : jwtwire.HMAC} next r env now text :
  httpfn.Cookie "auth_token" (http.Cookies r) = Some (jwtwire.Opaque text) →
  serve (authMiddleware next) r env now =
    {| w := plainReply http.StatusUnauthorized "Invalid token";
       environ := env; clock := now; trace := [] |}.
Proof. intros Hc. run_gate. rewrite Hc. reflexivity. Qed.

Lemma gate_segments {mac : jwtwire.HMAC} next r env now c :
  httpfn.Cookie "auth_token" (http.Cookies r) = Some (jwtwire.Segments c) →
  serve (authMiddleware next) r env now =
    if parses (secretOf env) now c then serve next r env now
    else {| w := plainReply http.StatusUnauthorized "Invalid token";
            environ := env; clock := now; trace := [] |}.
Proof.
  intros Hc. run_gate. rewrite Hc. unfold parses, secretOf, jwt.ParseUnverified.
  destruct (jwt.GetSigningMethod (jwtwire.alg c)) as [m|]; [|reflexivity].
  cbv [jwt.Method jwt.Claims fst snd].
  destruct (jwt.Verify m (jwtwire.signingString c) (jwtwire.signature c)
              (default "" (env !! "JWT_SECRET")));
    [reflexivity|].
  destruct (jwt.verifyExpiresAt (jwtwire.claims c) now),
           (jwt.verifyNotBefore (jwtwire.claims c) now); reflexivity.
Qed.

Lemma hmacName_inj a b : hmacName a = hmacName b → a = b.
Proof. destruct a, b; simpl; congruence. Qed.

Lemma GetSigningMethod_cases a :
  (∃ h, a = hmacName h ∧ jwt.GetSigningMethod a = Some (jwt.SigningMethodHMAC a h))
  ∨ ((∀ h, a ≠ hmacName h)
     ∧ (jwt.GetSigningMethod a = None
        ∨ jwt.GetSigningMethod a = Some (jwt.SigningMethodOther a))).
Proof.
  unfold jwt.GetSigningMethod.
  destruct (String.eqb_spec a "HS256") as [->|H1];
    [left; exists jwtwire.SHA256; split; reflexivity|].
  destruct (String.eqb_spec a "HS384") as [->|H2];
    [left; exists jwtwire.SHA384; split; reflexivity|].
  destruct (String.eqb_spec a "HS512") as [->|H3];
    [left; exists jwtwire.SHA512; split; reflexivity|].
  right. split.
  - intros [] E; simpl in E; congruence.
  - destruct (existsb (String.eqb a) jwt.otherMethods); auto.
Qed.

Lemma Verify_hmac {mac : jwtwire.HMAC} name h signing sig key :
  jwt.Verify (jwt.SigningMethodHMAC name h) signing sig key = None
  ↔ sig = jwtwire.hmac h key signing.
Proof.
  simpl. destruct (String.eqb_spec sig (jwtwire.hmac h key signing)) as [E|E];
    split; congruence.
Qed.

Lemma verifyExpiresAt_spec now c :
  jwt.verifyExpiresAt (jwtwire.claims c) now = None ↔ expiryAllows now c.
Proof.
  unfold jwt.verifyExpiresAt, jwt.parseNumericDate, expiryAllows.
  destruct (jwtwire.claims c !! "exp") as [[| | n | | |]|]; simpl;
    try (split; [discriminate|tauto]); [|tauto].
  destruct (Z.eqb_spec n 0) as [->|Hn]; simpl; [tauto|].
  destruct (Z.ltb_spec now n); split; try discriminate; try tauto; intros [|]; lia.
Qed.

Lemma verifyNotBefore_spec now c :
  jwt.verifyNotBefore (jwtwire.claims c) now = None ↔ notBeforeAllows now c.
Proof.
  unfold jwt.verifyNotBefore, jwt.parseNumericDate, notBeforeAllows.
  destruct (jwtwire.claims c !! "nbf") as [[| | n | | |]|]; simpl;
    try (split; [discriminate|tauto]); [|tauto].
  destruct (Z.eqb_spec n 0) as [->|Hn]; simpl; [tauto|].
  destruct (Z.ltb_spec now n); split; try discriminate; try tauto; intros [|]; lia.
Qed.

Lemma parses_spec {mac : jwtwire.HMAC} secret now c :
  parses secret now c = true
  ↔ signedWith secret c ∧ expiryAllows now c ∧ notBeforeAllows now c.
Proof.
  unfold parses, signedWith.
  rewrite <- verifyExpiresAt_spec, <- verifyNotBefore_spec.
  destruct (GetSigningMethod_cases (jwtwire.alg c)) as [(h & Ha & ->)|(Hno & [->| ->])].
  - destruct (jwt.Verify _ _ _ _) eqn:Ev.
    + split; [discriminate|]. intros ((h' & Ha' & Hs) & _).
      rewrite Ha in Ha'. apply hmacName_inj in Ha'. subst h'.
      apply (Verify_hmac (jwtwire.alg c)) in Hs. rewrite Hs in Ev. discriminate.
    + apply Verify_hmac in Ev.
      destruct (jwt.verifyExpiresAt _ _), (jwt.verifyNotBefore _ _);
        split; try discriminate; try (intros (_ & ? & ?); discriminate); eauto.
  - split; [discriminate|]. intros ((h & Ha & _) & _). destruct (Hno h Ha).
  - simpl. split; [discriminate|]. intros ((h & Ha & _) & _). destruct (Hno h Ha).
Qed.

Lemma arrive_not_plain next_env now code msg :
  arrive next_env now ≠
    {| w := plainReply code msg; environ := next_env; clock := now; trace := [] |}.
Proof. unfold arrive. intros E. inversion E. Qed.

Lemma plainReply_not_json code msg : ¬ jsonResponse (plainReply code msg).
Proof.
  intros [Hh _]. unfold plainReply in Hh. cbv [http.header] in Hh.
  rewrite lookup_insert_ne in Hh by discriminate.
  rewrite lookup_insert_eq in Hh. discriminate.
Qed.

Lemma init_issues {mac : jwtwire.HMAC} r env now :
  serve initHandler r env now =
    {| w := {| http.header := ∅;
               http.setCookie := [issuedCookie env now];
               http.status := Some http.StatusOK;
               http.body := [] |};
       environ := env; clock := now; trace := [] |}.
Proof. run_gate. reflexivity. Qed.

Lemma issued_parses {mac : jwtwire.HMAC} env now now' :
  now' < now + 2592000 →
  parses (secretOf env) now' (issuedCredential env now) = true.
Proof.
  intros Hlt. apply parses_spec. split; [|split].
  - exists jwtwire.SHA256. split; reflexivity.
  - unfold expiryAllows, issuedCredential, issuedClaims. cbv [jwtwire.claims].
    rewrite lookup_insert_ne by discriminate. rewrite lookup_insert_eq.
    right. exact Hlt.
  - unfold notBeforeAllows, issuedCredential, issuedClaims. cbv [jwtwire.claims].
    rewrite !lookup_insert_ne by discriminate. rewrite lookup_empty. exact I.
Qed.

Lemma carrying_issued_cookie {mac : jwtwire.HMAC} env now r :
  httpfn.Cookie "auth_token" (http.Cookies (carrying [issuedCookie env now] r)) =
    Some (jwtwire.Segments (issuedCredential env now)).
Proof. reflexivity. Qed.

Lemma lookup_cred_no_exp : jwtwire.claims cred_no_exp !! "exp" = None.
Proof. reflexivity. Qed.

Lemma lookup_cred_not_yet : jwtwire.claims cred_not_yet !! "exp" = Some (JNum 2000).
Proof. reflexivity. Qed.

Lemma signedHS256_signedWith {mac : jwtwire.HMAC} key claims :
  signedWith key (signedHS256 key claims).
Proof. exists jwtwire.SHA256. split; reflexivity. Qed.

(** * Start-up *)

Lemma main_fatal NewClient env now :
  apiKeyOf env = "" →
  main NewClient (boot env now) =
    (Exit 1,
     {| w := http.fresh; environ := env; clock := now;
        trace := [Log FatalLevel "OPENAI_API_KEY environment variable is not set" None] |}).
Proof.
  unfold apiKeyOf. intros Hk. unfold main, boot, os.Getenv, logrus.Fatal, emit.
  cbv [mbind M_bind mret M_ret fst snd w environ clock trace].
  rewrite Hk. reflexivity.
Qed.

Lemma main_serves NewClient env now :
  apiKeyOf env ≠ "" →
  main NewClient (boot env now) =
    (ListenAndServe (":" +:+ portOf env)
                    [("/api/chat", chatHandler (NewServer (NewClient (apiKeyOf env))))],
     {| w := http.fresh; environ := env; clock := now;
        trace := [Log InfoLevel ("Backend service is listening on port " +:+ portOf env)
                      None] |}).
Proof.
  unfold apiKeyOf, portOf. intros Hk. apply String.eqb_neq in Hk.
  unfold main, boot, os.Getenv, logrus.Infof, emit.
  cbv [mbind M_bind mret M_ret fst snd w environ clock trace].
  rewrite Hk. reflexivity.
Qed.

Lemma main_outcome NewClient env now :
  (main NewClient (boot env now)).1 =
    if String.eqb (apiKeyOf env) "" then Exit 1
    else ListenAndServe (":" +:+ portOf env)
           [("/api/chat", chatHandler (NewServer (NewClient (apiKeyOf env))))].
Proof.
  destruct (String.eqb_spec (apiKeyOf env) "") as [Hk|Hk].
  - rewrite main_fatal by exact Hk. reflexivity.
  - rewrite main_serves by exact Hk. reflexivity.
Qed.

Lemma apiKeyOf_insert_secret env v : apiKeyOf (<["JWT_SECRET" := v]> env) = apiKeyOf env.
Proof. unfold apiKeyOf. rewrite lookup_insert_ne by discriminate. reflexivity. Qed.

Lemma portOf_insert_secret env v : portOf (<["JWT_SECRET" := v]> env) = portOf env.
Proof. unfold portOf. rewrite lookup_insert_ne by discriminate. reflexivity. Qed.

Lemma apiKeyOf_delete_secret env : apiKeyOf (delete "JWT_SECRET" env) = apiKeyOf env.
Proof. unfold apiKeyOf. rewrite lookup_delete_ne by discriminate. reflexivity. Qed.

Lemma portOf_delete_secret env : portOf (delete "JWT_SECRET" env) = portOf env.
Proof. unfold portOf. rewrite lookup_delete_ne by discriminate. reflexivity. Qed.

(** * The claims about the chat relay *)

(** C1: a POST whose body decodes to a non-empty question, answered by the
    provider without error and with at least one choice, gets status 200
    and the JSON document whose answer member is the content of the first
    choice, unchanged. *)
Theorem chat_success_relays_first_choice s r env now q resp choice0 rest :
  http.Method r = "POST" →
  decodesTo r q →
  q ≠ "" →
  client s (completionFor q) = (resp, None) →
  openai.Choices resp = choice0 :: rest →
  let rw := w (serve (chatHandler s) r env now) in
  http.status rw = Some 200
  ∧ http.body rw =
      [http.JSONLine (JObj [("answer", JStr (openai.Content (openai.Message choice0)))])]
  ∧ http.header rw !! "Content-Type" = Some "application/json".
Proof.
  intros Hm Hd Hq Hc Hn.
  rewrite (chat_answer s r env now q resp choice0 rest) by assumption.
  cbv zeta. cbv [w jsonReply http.status http.body http.header].
  split; [reflexivity|]. split; [reflexivity|]. apply lookup_insert_eq.
Qed.

Lemma chat_success_hello :
  let rw := w (serve (chatHandler (NewServer stub_hi)) req_hello ∅ 0) in
  http.status rw = Some 200
  ∧ http.body rw = [http.JSONLine (JObj [("answer", JStr "hi there")])]
  ∧ http.header rw !! "Content-Type" = Some "application/json".
Proof.
  apply (chat_success_relays_first_choice (NewServer stub_hi) req_hello ∅ 0 "hello"
           {| openai.Choices := [choice "hi there"] |} (choice "hi there") []).
  - reflexivity.
  - reflexivity.
  - discriminate.
  - reflexivity.
  - reflexivity.
Defined.

(** C4: a POST whose body decodes but leaves the question empty (an empty
    string, or no question member at all) gets status 400 and an error
    document with a non-empty message; a decoded value with any other
    question is not turned away: it goes to the provider. *)
Theorem empty_question_is_bad_request s r env now v :
  http.Method r = "POST" →
  Unmarshal (http.Body r) {| Question := "" |} = (v, None) →
  let σ := serve (chatHandler s) r env now in
  (Question v = "" →
     http.status (w σ) = Some 400
     ∧ (∃ msg, http.body (w σ) = [http.JSONLine (JObj [("error", JStr msg)])] ∧ msg ≠ "")
     ∧ providerCalls (trace σ) = [])
  ∧ ((∃ fields, http.Body r = Some (JObj fields)
                ∧ Forall (λ kv, json.fieldMatch "question" kv.1 = false) fields) →
     Question v = "")
  ∧ (Question v ≠ "" →
     http.status (w σ) ≠ Some 400
     ∧ providerCalls (trace σ) = [completionFor (Question v)]).
Proof.
  intros Hm Hd σ. apply Unmarshal_inv in Hd as Hq. split; [|split].
  - intros He. rewrite He in Hq. subst σ.
    rewrite (chat_empty_question s r env now Hm Hq). simpl.
    split; [reflexivity|]. split; [|reflexivity].
    exists "The question field is required". split; [reflexivity|discriminate].
  - intros (fields & Hb & Hall). rewrite Hb in Hd.
    rewrite (Unmarshal_field_absent fields _ Hall) in Hd.
    injection Hd as <-. reflexivity.
  - intros Hne. destruct (chat_valid s r env now (Question v) Hm Hq Hne) as (Hp & _ & Hs).
    split; [|exact Hp].
    fold σ in Hs. destruct Hs as [-> | ->]; discriminate.
Qed.

Lemma empty_question_no_field :
  http.status (w (serve (chatHandler (NewServer stub_hi)) req_no_field ∅ 0)) = Some 400.
Proof.
  destruct (empty_question_is_bad_request (NewServer stub_hi) req_no_field ∅ 0
              {| Question := "" |} eq_refl eq_refl) as (H & _ & _).
  exact (proj1 (H eq_refl)).
Defined.

(** The other body of the specification's example: a question member
    that is the empty string. *)
Example empty_question_blank :
  let σ := serve (chatHandler (NewServer stub_hi)) req_blank ∅ 0 in
  http.status (w σ) = Some 400
  ∧ http.body (w σ) =
      [http.JSONLine (JObj [("error", JStr "The question field is required")])].
Proof.
  cbv zeta. rewrite (chat_empty_question _ req_blank ∅ 0 eq_refl eq_refl).
  split; reflexivity.
Qed.

(** C5: a request whose method is not POST gets status 405 whatever its
    body; the only effect besides the reply is one warning in the log: the
    body is not read and the provider is not called. *)
Theorem wrong_method_not_allowed s r env now :
  http.Method r ≠ "POST" →
  let σ := serve (chatHandler s) r env now in
  http.status (w σ) = Some 405
  ∧ http.body (w σ) = [http.JSONLine (JObj [("error", JStr "Method not allowed")])]
  ∧ trace σ = [Log WarnLevel ("invalid request method: " +:+ http.Method r) None]
  ∧ readsBody (trace σ) = false
  ∧ providerCalls (trace σ) = []
  ∧ (∀ body cookies,
       serve (chatHandler s)
             {| http.Method := http.Method r; http.Body := body; http.Cookies := cookies |}
             env now = σ).
Proof.
  intros Hm σ. subst σ. rewrite (chat_wrong_method s r env now Hm). simpl.
  repeat split. intros body cookies.
  rewrite chat_wrong_method by exact Hm. reflexivity.
Qed.

Lemma wrong_method_get :
  http.status (w (serve (chatHandler (NewServer stub_hi)) req_get ∅ 0)) = Some 405.
Proof.
  refine (proj1 (wrong_method_not_allowed (NewServer stub_hi) req_get ∅ 0 _)).
  discriminate.
Defined.

(** C6: for a valid chat request, a provider call that returns an error,
    or no error but zero choices, gets status 500 and an error document
    with one of the two provider-failure messages; the provider was called
    once, and not again. *)
Theorem provider_failure_is_500 s r env now q resp err :
  http.Method r = "POST" →
  decodesTo r q →
  q ≠ "" →
  client s (completionFor q) = (resp, err) →
  err ≠ None ∨ openai.Choices resp = [] →
  let σ := serve (chatHandler s) r env now in
  http.status (w σ) = Some 500
  ∧ (∃ msg, http.body (w σ) = [http.JSONLine (JObj [("error", JStr msg)])]
            ∧ (msg = "Failed to fetch response from OpenAI"
               ∨ msg = "No response from OpenAI"))
  ∧ http.header (w σ) !! "Content-Type" = Some "application/json"
  ∧ providerCalls (trace σ) = [completionFor q].
Proof.
  intros Hm Hd Hq Hc Hfail σ. subst σ.
  destruct err as [e|].
  - rewrite (chat_provider_error s r env now q resp e) by assumption.
    cbv [w trace jsonReply http.status http.body http.header providerCalls].
    split; [reflexivity|]. split; [eauto|]. split; [apply lookup_insert_eq|reflexivity].
  - destruct Hfail as [Hfail|Hn]; [congruence|].
    rewrite (chat_no_choice s r env now q resp) by assumption.
    cbv [w trace jsonReply http.status http.body http.header providerCalls].
    split; [reflexivity|]. split; [eauto|]. split; [apply lookup_insert_eq|reflexivity].
Qed.

Lemma provider_failure_zero_choices :
  http.status (w (serve (chatHandler (NewServer stub_silent)) req_hello ∅ 0)) = Some 500.
Proof.
  refine (proj1 (provider_failure_is_500 (NewServer stub_silent) req_hello ∅ 0 "hello"
                   {| openai.Choices := [] |} None eq_refl eq_refl _ eq_refl _)).
  - discriminate.
  - right. reflexivity.
Defined.

(** The other stub of the specification's example: the provider call
    returns an error. *)
Example provider_failure_error :
  let σ := serve (chatHandler (NewServer stub_down)) req_hello ∅ 0 in
  http.status (w σ) = Some 500
  ∧ http.body (w σ) =
      [http.JSONLine (JObj [("error", JStr "Failed to fetch response from OpenAI")])]
  ∧ trace σ = [ReadBody; CallProvider (completionFor "hello");
               Log ErrorLevel "error calling OpenAI API" (Some "connection refused")].
Proof.
  cbv zeta.
  rewrite (chat_provider_error (NewServer stub_down) req_hello ∅ 0 "hello"
             {| openai.Choices := [] |} "connection refused" eq_refl eq_refl);
    [repeat split | discriminate | reflexivity].
Qed.

(** C8: for a POST with a non-empty question, the one request sent to the
    provider names the model gpt-4o and holds two messages: the system
    message with the persona prompt, then the user message with the
    question as it came in. *)
Theorem completion_request_shape s r env now q :
  http.Method r = "POST" →
  decodesTo r q →
  q ≠ "" →
  providerCalls (trace (serve (chatHandler s) r env now)) =
    [ {| openai.Model := "gpt-4o";
         openai.Messages :=
           [ {| openai.Role := "system"; openai.Content := systemPrompt |};
             {| openai.Role := "user"; openai.Content := q |} ] |} ].
Proof.
  intros Hm Hd Hq. exact (proj1 (chat_valid s r env now q Hm Hd Hq)).
Qed.

Lemma completion_request_hello :
  providerCalls (trace (serve (chatHandler (NewServer stub_hi)) req_hello ∅ 0)) =
    [ {| openai.Model := "gpt-4o";
         openai.Messages :=
           [ {| openai.Role := "system"; openai.Content := systemPrompt |};
             {| openai.Role := "user"; openai.Content := "hello" |} ] |} ].
Proof.
  refine (completion_request_shape (NewServer stub_hi) req_hello ∅ 0 "hello"
            eq_refl eq_refl _).
  discriminate.
Defined.

(** C10: the provider is called once when the method is POST, the body
    decodes and the question is not empty, and not at all when one of the
    three fails. *)
Theorem provider_called_iff_valid s r env now :
  providerCalls (trace (serve (chatHandler s) r env now)) =
    if passesValidation r
    then [completionFor (Question (Unmarshal (http.Body r) {| Question := "" |}).1)]
    else [].
Proof.
  unfold passesValidation.
  destruct (String.eqb_spec (http.Method r) "POST") as [Hm|Hm]; simpl.
  - destruct (Unmarshal (http.Body r) {| Question := "" |}) as [v [e|]] eqn:Hd; simpl.
    + rewrite (chat_bad_payload s r env now v e Hm Hd). reflexivity.
    + apply Unmarshal_inv in Hd.
      destruct (String.eqb_spec (Question v) "") as [He|Hne]; simpl.
      * rewrite He in Hd. rewrite (chat_empty_question s r env now Hm Hd). reflexivity.
      * exact (proj1 (chat_valid s r env now (Question v) Hm Hd Hne)).
  - rewrite (chat_wrong_method s r env now Hm). reflexivity.
Qed.

(** * The claims about the token gate *)

(** C2, as stated, fails: at time 1000 a credential with a matching
    signature and no expiration timestamp passes verification, and one
    with a matching signature and an expiration in the future is refused
    because of its not-before claim. *)
Lemma verify_rule_as_stated_fails :
  (letThrough (mac := sampleMAC) (withCookie (jwtwire.Segments cred_no_exp)) env_secret 1000
   ∧ ¬ expiryInFuture 1000 cred_no_exp)
  ∧ (signedWith (mac := sampleMAC) "s3cret" cred_not_yet
     ∧ expiryInFuture 1000 cred_not_yet
     ∧ refused (mac := sampleMAC) "Invalid token"
               (withCookie (jwtwire.Segments cred_not_yet)) env_secret 1000).
Proof.
  split; [split|split; [|split]].
  - intros next. rewrite (gate_segments next _ _ _ cred_no_exp) by reflexivity.
    reflexivity.
  - intros (e & He & _). rewrite lookup_cred_no_exp in He. discriminate.
  - apply signedHS256_signedWith.
  - exists 2000. split; [exact lookup_cred_not_yet|lia].
  - intros next. rewrite (gate_segments next _ _ _ cred_not_yet) by reflexivity.
    reflexivity.
Qed.

(** C2, amended: for a credential whose exp and nbf claims, where they are
    numbers, are whole numbers of at most 2^53 in magnitude, the
    credential of the cookie passes verification exactly when it is a
    token whose signature is the HMAC, for the hash its header names, of
    its signing string under the process secret, whose exp claim, if there
    is one other than 0, is a time in the future, and whose nbf claim, if
    there is one other than 0, is a time not in the future; every other
    such credential is answered 401.  So a signature that is not that
    HMAC gives 401 whatever the expiry, and a non-zero expiry not in the
    future gives 401 whatever the signature. *)
Theorem verify_accepts_iff {mac : jwtwire.HMAC} r env now cookie :
  httpfn.Cookie "auth_token" (http.Cookies r) = Some cookie →
  (∀ c, cookie = jwtwire.Segments c → datesExact c) →
  (letThrough r env now
   ↔ ∃ c, cookie = jwtwire.Segments c
          ∧ signedWith (secretOf env) c
          ∧ expiryAllows now c ∧ notBeforeAllows now c)
  ∧ (letThrough r env now ∨ refused "Invalid token" r env now)
  ∧ (∀ c, cookie = jwtwire.Segments c →
          ¬ signedWith (secretOf env) c → refused "Invalid token" r env now)
  ∧ (∀ c e, cookie = jwtwire.Segments c →
            jwtwire.claims c !! "exp" = Some (JNum e) → e ≠ 0 → e ≤ now →
            refused "Invalid token" r env now).
Proof.
  intros Hc _.
  assert (Hno : ∀ c, cookie = jwtwire.Segments c →
                     parses (secretOf env) now c = false →
                     refused "Invalid token" r env now).
  { intros c -> Hp next. rewrite (gate_segments next r env now c Hc), Hp. reflexivity. }
  assert (Hyes : ∀ c, cookie = jwtwire.Segments c →
                      parses (secretOf env) now c = true → letThrough r env now).
  { intros c -> Hp next. rewrite (gate_segments next r env now c Hc), Hp. reflexivity. }
  assert (Hexcl : ∀ msg, refused msg r env now → ¬ letThrough r env now).
  { intros msg Hr Ha. specialize (Hr nop). rewrite (Ha nop) in Hr.
    exact (arrive_not_plain env now _ _ Hr). }
  split; [|split; [|split]].
  - split.
    + intros Ha. destruct cookie as [text|c].
      * exfalso. apply (Hexcl "Invalid token"); [|exact Ha].
        intros next. apply (gate_opaque next r env now text Hc).
      * exists c. split; [reflexivity|]. apply parses_spec.
        destruct (parses (secretOf env) now c) eqn:Hp; [reflexivity|].
        exfalso. exact (Hexcl _ (Hno c eq_refl Hp) Ha).
    + intros (c & -> & Hs). apply (Hyes c eq_refl). apply parses_spec. exact Hs.
  - destruct cookie as [text|c].
    + right. intros next. apply (gate_opaque next r env now text Hc).
    + destruct (parses (secretOf env) now c) eqn:Hp; [left|right]; eauto.
  - intros c E Hns. apply (Hno c E).
    destruct (parses (secretOf env) now c) eqn:Hp; [|reflexivity].
    apply parses_spec in Hp. tauto.
  - intros c e E He Hz Hle. apply (Hno c E).
    destruct (parses (secretOf env) now c) eqn:Hp; [|reflexivity].
    apply parses_spec in Hp. destruct Hp as (_ & Hexp & _).
    unfold expiryAllows in Hexp. rewrite He in Hexp. lia.
Qed.

Lemma cred_issued_datesExact : datesExact cred_issued.
Proof.
  intros key n [-> | ->] H; vm_compute in H; [|discriminate].
  injection H as <-. lia.
Qed.

Lemma verify_accepts_issued :
  letThrough (mac := sampleMAC) (withCookie (jwtwire.Segments cred_issued)) env_secret 1000.
Proof.
  refine (proj2 (proj1 (verify_accepts_iff (mac := sampleMAC)
                          (withCookie (jwtwire.Segments cred_issued))
                          env_secret 1000 (jwtwire.Segments cred_issued) eq_refl _)) _).
  - intros c E. injection E as <-. exact cred_issued_datesExact.
  - exists cred_issued. split; [reflexivity|].
    apply parses_spec. apply (issued_parses (mac := sampleMAC) env_secret 1000 1000). lia.
Defined.

(** C3: the cookie of the issue operation, presented to the verify
    operation under the same secret at once (or at any time before its
    expiry), is let through to the wrapped handler; a request without the
    credential cookie gets 401 Unauthorized, and the reply does not depend
    on the wrapped handler, which is not run. *)
Theorem issue_then_verify {mac : jwtwire.HMAC} (next : Handler) r0 r env now now' :
  let issued := w (serve initHandler r0 env now) in
  let r' := carrying (http.setCookie issued) r in
  http.status issued = Some 200
  ∧ serve (authMiddleware next) r' env now = serve next r' env now
  ∧ (now' < now + 2592000 →
     serve (authMiddleware next) r' env now' = serve next r' env now')
  ∧ (httpfn.Cookie "auth_token" (http.Cookies r) = None →
     serve (authMiddleware next) r env now =
       {| w := plainReply 401 "Unauthorized";
          environ := env; clock := now; trace := [] |}).
Proof.
  cbv zeta. rewrite init_issues. cbv [w http.setCookie http.status].
  assert (Hgo : ∀ t, t < now + 2592000 →
            serve (authMiddleware next) (carrying [issuedCookie env now] r) env t =
            serve next (carrying [issuedCookie env now] r) env t).
  { intros t Ht.
    rewrite (gate_segments next _ env t _ (carrying_issued_cookie env now r)).
    rewrite (issued_parses env now t Ht). reflexivity. }
  split; [reflexivity|]. split; [apply Hgo; lia|]. split; [apply Hgo|].
  intros Hc. apply gate_no_cookie, Hc.
Qed.

Lemma issue_then_verify_next_day :
  serve (authMiddleware (mac := sampleMAC) nop)
        (carrying (http.setCookie
                     (w (serve (initHandler (mac := sampleMAC)) req_hello env_secret 1000)))
                  req_get)
        env_secret 87400 =
  serve nop
        (carrying (http.setCookie
                     (w (serve (initHandler (mac := sampleMAC)) req_hello env_secret 1000)))
                  req_get)
        env_secret 87400.
Proof.
  refine (proj1 (proj2 (proj2
            (issue_then_verify (mac := sampleMAC) nop req_hello req_get env_secret
               1000 87400))) _).
  lia.
Defined.

(** * The claim about the shape of every response *)

(** C7, as stated, fails on the token gate: the reply of the issue
    operation has no content type and an empty body, and the 401 of the
    verify operation is plain text. *)
Lemma token_gate_replies_are_not_json :
  ¬ jsonResponse (w (serve (initHandler (mac := sampleMAC)) req_hello env_secret 1000))
  ∧ ¬ jsonResponse (w (serve (authMiddleware (mac := sampleMAC)
                                (chatHandler (NewServer stub_hi)))
                             req_hello env_secret 1000)).
Proof.
  split.
  - rewrite init_issues. intros [Hh _]. cbv [w http.header] in Hh.
    rewrite lookup_empty in Hh. discriminate.
  - rewrite gate_no_cookie by reflexivity. apply plainReply_not_json.
Qed.

(** C7, amended: every response of the chat handler, success or error,
    carries Content-Type: application/json and a body that is one JSON
    document of a documented shape.  The token gate writes no JSON: the
    issue operation replies with an empty body and no content type, and
    the verify operation either hands the request to the wrapped handler
    or replies 401 in plain text. *)
Theorem chat_responses_are_json {mac : jwtwire.HMAC} s (next : Handler) r env now :
  jsonResponse (w (serve (chatHandler s) r env now))
  ∧ (let rw := w (serve initHandler r env now) in
     http.header rw !! "Content-Type" = None ∧ http.body rw = [])
  ∧ (serve (authMiddleware next) r env now = serve next r env now
     ∨ ∃ msg, w (serve (authMiddleware next) r env now) = plainReply 401 msg).
Proof.
  split; [|split].
  - destruct (String.eqb_spec (http.Method r) "POST") as [Hm|Hm].
    + destruct (Unmarshal (http.Body r) {| Question := "" |}) as [v [e|]] eqn:Hd.
      * rewrite (chat_bad_payload s r env now v e Hm Hd).
        apply jsonReply_jsonResponse. right. eauto.
      * apply Unmarshal_inv in Hd.
        destruct (String.eqb_spec (Question v) "") as [He|Hne].
        -- rewrite He in Hd. rewrite (chat_empty_question s r env now Hm Hd).
           apply jsonReply_jsonResponse. right. eauto.
        -- destruct (client s (completionFor (Question v))) as [resp [err|]] eqn:Hc.
           ++ rewrite (chat_provider_error s r env now _ resp err Hm Hd Hne Hc).
              apply jsonReply_jsonResponse. right. eauto.
           ++ destruct (openai.Choices resp) as [|choice0 rest] eqn:Hn.
              ** rewrite (chat_no_choice s r env now _ resp Hm Hd Hne Hc Hn).
                 apply jsonReply_jsonResponse. right. eauto.
              ** rewrite (chat_answer s r env now _ resp choice0 rest Hm Hd Hne Hc Hn).
                 apply jsonReply_jsonResponse. left. eauto.
    + rewrite (chat_wrong_method s r env now Hm).
      apply jsonReply_jsonResponse. right. eauto.
  - cbv zeta. rewrite init_issues. cbv [w http.header http.body].
    split; [apply lookup_empty|reflexivity].
  - destruct (httpfn.Cookie "auth_token" (http.Cookies r)) as [[text|c]|] eqn:Hc.
    + right. rewrite (gate_opaque next r env now text Hc). eauto.
    + rewrite (gate_segments next r env now c Hc).
      destruct (parses (secretOf env) now c); [left; reflexivity|right; eauto].
    + right. rewrite (gate_no_cookie next r env now Hc). eauto.
Qed.

(** * The claim about start-up *)

(** C9, as stated, fails: with the provider key set and no signing secret
    in the environment, the process starts and serves. *)
Lemma starts_without_signing_secret :
  env_no_secret !! "JWT_SECRET" = None
  ∧ (main NewClient_stub (boot env_no_secret 0)).1 =
      ListenAndServe ":8080"
        [("/api/chat", chatHandler (NewServer (NewClient_stub "sk-test")))].
Proof.
  split; [reflexivity|].
  rewrite main_serves by (vm_compute; discriminate). reflexivity.
Qed.

(** C9, amended: the provider API key is the one setting start-up
    requires: the process logs a fatal record and exits when it is unset
    or empty, and reaches the listener otherwise.  Start-up does not look
    at the signing secret: the outcome is the same whether it is set, to
    any value, or not. *)
Theorem startup_requires_api_key NewClient env now :
  (apiKeyOf env = "" →
     main NewClient (boot env now) =
       (Exit 1,
        {| w := http.fresh; environ := env; clock := now;
           trace := [Log FatalLevel "OPENAI_API_KEY environment variable is not set"
                         None] |}))
  ∧ (apiKeyOf env ≠ "" →
     (main NewClient (boot env now)).1 =
       ListenAndServe (":" +:+ portOf env)
         [("/api/chat", chatHandler (NewServer (NewClient (apiKeyOf env))))])
  ∧ (∀ secret,
       (main NewClient (boot (<["JWT_SECRET" := secret]> env) now)).1 =
       (main NewClient (boot env now)).1)
  ∧ (main NewClient (boot (delete "JWT_SECRET" env) now)).1 =
    (main NewClient (boot env now)).1.
Proof.
  split; [|split; [|split]].
  - apply main_fatal.
  - intros Hk. rewrite main_serves by exact Hk. reflexivity.
  - intros secret. rewrite !main_outcome.
    rewrite apiKeyOf_insert_secret, portOf_insert_secret. reflexivity.
  - rewrite !main_outcome.
    rewrite apiKeyOf_delete_secret, portOf_delete_secret. reflexivity.
Qed.

Lemma startup_without_api_key :
  (main NewClient_stub (boot env_secret 0)).1 = Exit 1.
Proof.
  rewrite (proj1 (startup_requires_api_key NewClient_stub env_secret 0) eq_refl).
  reflexivity.
Defined.

(** * Beyond the claims: helper lemmas *)

(** Case analysis along the paths of the chat handler. *)
Ltac chat_paths s r env now :=
  destruct (String.eqb_spec (http.Method r) "POST") as [Hm|Hm];
  [ destruct (Unmarshal (http.Body r) {| Question := "" |}) as [v [e|]] eqn:Hd;
    cbn [fst snd];
    [ rewrite ?(chat_bad_payload s r env now v e Hm Hd)
    | pose proof (Unmarshal_inv r v Hd) as Hq;
      destruct (String.eqb_spec (Question v) "") as [He|Hne];
      [ rewrite He in Hq; rewrite ?(chat_empty_question s r env now Hm Hq)
      | destruct (client s (completionFor (Question v))) as [resp [err|]] eqn:Hc;
        cbn [fst snd];
        [ rewrite ?(chat_provider_error s r env now _ resp err Hm Hq Hne Hc)
        | destruct (openai.Choices resp) as [|choice0 rest] eqn:Hn;
          [ rewrite ?(chat_no_choice s r env now _ resp Hm Hq Hne Hc Hn)
          | rewrite ?(chat_answer s r env now _ resp choice0 rest Hm Hq Hne Hc Hn) ] ] ] ]
  | rewrite ?(chat_wrong_method s r env now Hm) ].

(** Every run of the relay ends in a JSON reply and leaves environment and
    clock alone. *)
Lemma chat_ends_in_jsonReply s r env now :
  ∃ code doc t,
    serve (chatHandler s) r env now =
      {| w := jsonReply code doc; environ := env; clock := now; trace := t |}.
Proof. chat_paths s r env now; eauto. Qed.

(** The relay looks at the method and at the decoded body, and at nothing
    else of request, environment and clock. *)
Lemma chat_depends_on s r r' env env' now now' :
  http.Method r = http.Method r' →
  Unmarshal (http.Body r) {| Question := "" |} =
    Unmarshal (http.Body r') {| Question := "" |} →
  w (serve (chatHandler s) r env now) = w (serve (chatHandler s) r' env' now')
  ∧ trace (serve (chatHandler s) r env now) = trace (serve (chatHandler s) r' env' now').
Proof.
  intros Em Ed.
  destruct (String.eqb_spec (http.Method r) "POST") as [Hm|Hm].
  - assert (Hm' : http.Method r' = "POST") by congruence.
    destruct (Unmarshal (http.Body r) {| Question := "" |}) as [v [e|]] eqn:Hd.
    + symmetry in Ed.
      rewrite (chat_bad_payload s r env now v e Hm Hd).
      rewrite (chat_bad_payload s r' env' now' v e Hm' Ed). split; reflexivity.
    + symmetry in Ed.
      pose proof (Unmarshal_inv r v Hd) as Hq.
      pose proof (Unmarshal_inv r' v Ed) as Hq'.
      destruct (String.eqb_spec (Question v) "") as [He|Hne].
      * rewrite He in Hq, Hq'.
        rewrite (chat_empty_question s r env now Hm Hq).
        rewrite (chat_empty_question s r' env' now' Hm' Hq'). split; reflexivity.
      * destruct (client s (completionFor (Question v))) as [resp [err|]] eqn:Hc.
        -- rewrite (chat_provider_error s r env now _ resp err Hm Hq Hne Hc).
           rewrite (chat_provider_error s r' env' now' _ resp err Hm' Hq' Hne Hc).
           split; reflexivity.
        -- destruct (openai.Choices resp) as [|choice0 rest] eqn:Hn.
           ++ rewrite (chat_no_choice s r env now _ resp Hm Hq Hne Hc Hn).
              rewrite (chat_no_choice s r' env' now' _ resp Hm' Hq' Hne Hc Hn).
              split; reflexivity.
           ++ rewrite (chat_answer s r env now _ resp choice0 rest Hm Hq Hne Hc Hn).
              rewrite (chat_answer s r' env' now' _ resp choice0 rest Hm' Hq' Hne Hc Hn).
              split; reflexivity.
  - assert (Hm' : http.Method r' ≠ "POST") by congruence.
    rewrite (chat_wrong_method s r env now Hm), (chat_wrong_method s r' env' now' Hm').
    rewrite Em. split; reflexivity.
Qed.

(** An error, once saved, stays while the other members are decoded. *)
Lemma decode_error_sticks fields acc e :
  acc.2 = Some e → (fold_left decodeMember fields acc).2 = Some e.
Proof.
  revert acc. induction fields as [|kv fields IH]; intros acc He; simpl.
  - exact He.
  - apply IH. unfold decodeMember.
    destruct (json.fieldMatch "question" kv.1); [|exact He].
    destruct kv.2; simpl; try exact He; rewrite He; reflexivity.
Qed.

(** A question member that is neither a string nor null leaves an error. *)
Lemma decode_bad_member fields acc k v :
  In (k, v) fields →
  json.fieldMatch "question" k = true →
  stringOrNull v = false →
  ∃ e, (fold_left decodeMember fields acc).2 = Some e.
Proof.
  revert acc. induction fields as [|kv fields IH]; intros acc Hin Hk Hv.
  - contradiction.
  - simpl in Hin. destruct Hin as [->|Hin]; simpl.
    + assert (He : ∃ e, (decodeMember acc (k, v)).2 = Some e).
      { unfold decodeMember. simpl. rewrite Hk.
        destruct v; try discriminate; simpl; destruct acc.2; eauto. }
      destruct He as [e He]. exists e. apply decode_error_sticks, He.
    + apply IH; assumption.
Qed.

(** Members with another key do not take part in decoding. *)
Lemma decode_skips_other_members fields acc :
  fold_left decodeMember (questionMembers fields) acc = fold_left decodeMember fields acc.
Proof.
  revert acc. induction fields as [|kv fields IH]; intros acc; simpl.
  - reflexivity.
  - destruct (json.fieldMatch "question" kv.1) eqn:Hk; simpl.
    + apply IH.
    + rewrite IH. rewrite (decodeMember_skip acc kv Hk). reflexivity.
Qed.

(** The verdict of the gate, read off the first credential cookie. *)
Lemma letThrough_iff {mac : jwtwire.HMAC} r env now :
  letThrough r env now
  ↔ ∃ c, httpfn.Cookie "auth_token" (http.Cookies r) = Some (jwtwire.Segments c)
         ∧ parses (secretOf env) now c = true.
Proof.
  split.
  - intros Ha. specialize (Ha nop). unfold serve at 2, exec, nop in Ha. simpl in Ha.
    destruct (httpfn.Cookie "auth_token" (http.Cookies r)) as [[text|c]|] eqn:Hc.
    + rewrite (gate_opaque _ r env now text Hc) in Ha.
      symmetry in Ha. destruct (arrive_not_plain _ _ _ _ Ha).
    + exists c. split; [reflexivity|].
      rewrite (gate_segments _ r env now c Hc) in Ha.
      destruct (parses (secretOf env) now c); [reflexivity|].
      symmetry in Ha. destruct (arrive_not_plain _ _ _ _ Ha).
    + rewrite (gate_no_cookie _ r env now Hc) in Ha.
      symmetry in Ha. destruct (arrive_not_plain _ _ _ _ Ha).
  - intros (c & Hc & Hp) next. rewrite (gate_segments next r env now c Hc), Hp.
    reflexivity.
Qed.

Lemma chat_status_in s r env now :
  let st := http.status (w (serve (chatHandler s) r env now)) in
  st = Some 200 ∨ st = Some 400 ∨ st = Some 405 ∨ st = Some 500.
Proof. cbv zeta. chat_paths s r env now; simpl; auto. Qed.

Lemma chat_calls_provider_iff s r env now :
  providerCalls (trace (serve (chatHandler s) r env now)) ≠ []
  ↔ passesValidation r = true.
Proof.
  unfold passesValidation.
  destruct (String.eqb_spec (http.Method r) "POST") as [Hm|Hm]; simpl.
  - destruct (Unmarshal (http.Body r) {| Question := "" |}) as [v [e|]] eqn:Hd; simpl.
    + rewrite (chat_bad_payload s r env now v e Hm Hd). simpl.
      split; [congruence|discriminate].
    + apply Unmarshal_inv in Hd.
      destruct (String.eqb_spec (Question v) "") as [He|Hne]; simpl.
      * rewrite He in Hd. rewrite (chat_empty_question s r env now Hm Hd). simpl.
        split; [congruence|discriminate].
      * rewrite (proj1 (chat_valid s r env now (Question v) Hm Hd Hne)).
        split; [reflexivity|discriminate].
  - rewrite (chat_wrong_method s r env now Hm). simpl. split; [congruence|discriminate].
Qed.

(** * Beyond the claims: the chat relay *)

(** X1: every response of the chat handler, whatever the outcome, carries
    the two cross-origin headers (any origin, the Content-Type header) and
    sets no cookie. *)
Theorem chat_cors_on_every_response s r env now :
  let rw := w (serve (chatHandler s) r env now) in
  http.header rw !! "Access-Control-Allow-Origin" = Some "*"
  ∧ http.header rw !! "Access-Control-Allow-Headers" = Some "Content-Type"
  ∧ http.setCookie rw = [].
Proof.
  cbv zeta. destruct (chat_ends_in_jsonReply s r env now) as (code & doc & t & ->).
  cbv [w jsonReply http.header http.setCookie].
  split; [|split; [|reflexivity]].
  - rewrite !lookup_insert_ne by discriminate. apply lookup_insert_eq.
  - rewrite lookup_insert_ne by discriminate. apply lookup_insert_eq.
Qed.

(** X2: a POST whose body holds no JSON document, or a document that is
    neither an object nor null, gets 400 with the message Invalid request
    payload; the decode error is logged and the provider is not called. *)
Theorem undecodable_body_is_bad_request s r env now :
  http.Method r = "POST" →
  objectOrNull (http.Body r) = false →
  let σ := serve (chatHandler s) r env now in
  http.status (w σ) = Some 400
  ∧ http.body (w σ) = [http.JSONLine (JObj [("error", JStr "Invalid request payload")])]
  ∧ (∃ e, logRecords (trace σ) = [Log ErrorLevel "invalid request payload" (Some e)])
  ∧ providerCalls (trace σ) = [].
Proof.
  intros Hm Hb.
  assert (Hd : ∃ e, Unmarshal (http.Body r) {| Question := "" |}
                    = ({| Question := "" |}, Some e)).
  { destruct (http.Body r) as [[| | | | |]|]; try discriminate; simpl; eauto. }
  destruct Hd as [e Hd]. cbv zeta.
  rewrite (chat_bad_payload s r env now _ e Hm Hd).
  cbv [w trace jsonReply http.status http.body]. simpl. eauto 6.
Qed.

Lemma undecodable_body_array :
  http.status (w (serve (chatHandler (NewServer stub_hi)) req_array ∅ 0)) = Some 400.
Proof.
  exact (proj1 (undecodable_body_is_bad_request (NewServer stub_hi) req_array ∅ 0
                  eq_refl eq_refl)).
Defined.

(** X3: a POST whose body is an object with a question member that is
    neither a string nor null gets 400 Invalid request payload without a
    provider call, also when another question member holds a string. *)
Theorem mistyped_question_is_bad_request s r env now fields k v :
  http.Method r = "POST" →
  http.Body r = Some (JObj fields) →
  In (k, v) fields →
  json.fieldMatch "question" k = true →
  stringOrNull v = false →
  let σ := serve (chatHandler s) r env now in
  http.status (w σ) = Some 400
  ∧ http.body (w σ) = [http.JSONLine (JObj [("error", JStr "Invalid request payload")])]
  ∧ providerCalls (trace σ) = [].
Proof.
  intros Hm Hb Hin Hk Hv.
  destruct (decode_bad_member fields ({| Question := "" |}, None) k v Hin Hk Hv)
    as [e He].
  destruct (Unmarshal (http.Body r) {| Question := "" |}) as [q o] eqn:Hd.
  assert (o = Some e) as ->.
  { rewrite Hb in Hd. simpl in Hd. rewrite Hd in He. exact He. }
  cbv zeta. rewrite (chat_bad_payload s r env now q e Hm Hd).
  repeat split.
Qed.

Lemma mistyped_question_number :
  http.status (w (serve (chatHandler (NewServer stub_hi)) req_number ∅ 0)) = Some 400.
Proof.
  refine (proj1 (mistyped_question_is_bad_request (NewServer stub_hi) req_number ∅ 0
                   _ "question" (JNum 7) eq_refl eq_refl _ eq_refl eq_refl)).
  left. reflexivity.
Defined.

(** X4: members of the body whose key is not the question field are
    ignored: response and effects are those of the request whose body has
    the question members only. *)
Theorem other_members_are_ignored s r env now fields :
  http.Body r = Some (JObj fields) →
  let r' := {| http.Method := http.Method r;
               http.Body := Some (JObj (questionMembers fields));
               http.Cookies := http.Cookies r |} in
  serve (chatHandler s) r env now = serve (chatHandler s) r' env now.
Proof.
  intros Hb r'.
  destruct (chat_depends_on s r r' env env now now) as [Hw Ht].
  - reflexivity.
  - rewrite Hb. simpl. symmetry. apply decode_skips_other_members.
  - destruct (chat_ends_in_jsonReply s r env now) as (c1 & d1 & t1 & E1).
    destruct (chat_ends_in_jsonReply s r' env now) as (c2 & d2 & t2 & E2).
    rewrite E1, E2 in *. simpl in Hw, Ht. rewrite Hw, Ht. reflexivity.
Qed.

Lemma other_members_are_ignored_extra :
  serve (chatHandler (NewServer stub_hi)) req_extra ∅ 0 =
  serve (chatHandler (NewServer stub_hi)) req_hello ∅ 0.
Proof.
  exact (other_members_are_ignored (NewServer stub_hi) req_extra ∅ 0 _ eq_refl).
Defined.

(** X5: the status of a chat response is 200, 400, 405 or 500; it is 405
    exactly for a method other than POST, 400 exactly for a POST that
    fails decoding or the emptiness check, and 200 exactly when the
    request passes the validations and the provider returns no error and
    at least one choice. *)
Theorem chat_status_cases s r env now :
  let σ := serve (chatHandler s) r env now in
  let q := Question (Unmarshal (http.Body r) {| Question := "" |}).1 in
  let p := client s (completionFor q) in
  (http.status (w σ) = Some 200 ∨ http.status (w σ) = Some 400
   ∨ http.status (w σ) = Some 405 ∨ http.status (w σ) = Some 500)
  ∧ (http.status (w σ) = Some 405 ↔ http.Method r ≠ "POST")
  ∧ (http.status (w σ) = Some 400
     ↔ http.Method r = "POST" ∧ passesValidation r = false)
  ∧ (http.status (w σ) = Some 200
     ↔ passesValidation r = true ∧ p.2 = None ∧ openai.Choices p.1 ≠ []).
Proof.
  cbv zeta. unfold passesValidation.
  chat_paths s r env now;
    cbv [w jsonReply http.status http.StatusBadRequest http.StatusOK
         http.StatusMethodNotAllowed http.StatusInternalServerError];
    try rewrite Hm; try rewrite Hn; simpl.
  all: try (apply String.eqb_neq in Hne as Hne'; rewrite Hne'; simpl).
  all: try (apply String.eqb_neq in Hm as Hm'; rewrite Hm'; simpl).
  all: try rewrite He; simpl.
  all: repeat split; auto; try discriminate; try tauto;
    try (intros (? & ?); discriminate); try (intros (? & ? & ?); congruence);
    try congruence.
Qed.

Lemma chat_status_hello :
  http.status (w (serve (chatHandler (NewServer stub_hi)) req_hello ∅ 0)) = Some 200.
Proof.
  apply (proj2 (proj2 (proj2 (proj2 (chat_status_cases (NewServer stub_hi) req_hello ∅ 0))))).
  split; [reflexivity|]. split; [reflexivity|discriminate].
Defined.



(** X7: the chat handler is stateless: response and effects depend on the
    method, the body and the provider only, not on the cookies of the
    request, the environment or the clock, and it leaves environment and
    clock as they are. *)
Theorem chat_is_stateless s r cookies env env' now now' :
  let σ := serve (chatHandler s) r env now in
  let σ' := serve (chatHandler s) (withCookies cookies r) env' now' in
  w σ = w σ' ∧ trace σ = trace σ' ∧ environ σ = env ∧ clock σ = now.
Proof.
  cbv zeta.
  destruct (chat_depends_on s r (withCookies cookies r) env env' now now' eq_refl eq_refl)
    as [Hw Ht].
  split; [exact Hw|]. split; [exact Ht|].
  destruct (chat_ends_in_jsonReply s r env now) as (code & doc & t & ->).
  split; reflexivity.
Qed.

(** X8: on a writer whose header is not written yet, errorResponse writes
    the given status, sets Content-Type: application/json beside the
    headers already set, and appends one JSON object with the single
    member error holding the message; it logs nothing. *)
Theorem errorResponse_reply s code msg σ :
  http.status (w σ) = None →
  let σ' := exec (errorResponse s code msg) σ in
  http.status (w σ') = Some code
  ∧ http.header (w σ') = <["Content-Type" := "application/json"]> (http.header (w σ))
  ∧ http.body (w σ') =
      (http.body (w σ) ++ [http.JSONLine (JObj [("error", JStr msg)])])%list
  ∧ http.setCookie (w σ') = http.setCookie (w σ)
  ∧ trace σ' = trace σ.
Proof.
  destruct σ as [[hd ck st bd] env now t]. simpl. intros ->.
  run_handler. rewrite Marshal_error_map. repeat split.
Qed.

Lemma errorResponse_reply_teapot :
  http.status (w (exec (errorResponse (NewServer stub_hi) 418 "teapot") zeroWorld))
  = Some 418.
Proof.
  exact (proj1 (errorResponse_reply (NewServer stub_hi) 418 "teapot" zeroWorld eq_refl)).
Defined.

(** * Beyond the claims: the token gate *)

(** X9: the issue operation answers every request, under every
    environment (also one without JWT_SECRET), with status 200, an empty
    body, no log record and exactly one cookie: auth_token, HttpOnly,
    Secure, SameSite=Strict, Path=/, whose value is an HS256 token signed
    with the secret, with the claims app and exp, exp being 30 days
    (2592000 s) after the clock.  It never answers 500. *)
Theorem init_always_issues {mac : jwtwire.HMAC} r env now :
  let σ := serve initHandler r env now in
  http.status (w σ) = Some 200
  ∧ http.body (w σ) = []
  ∧ trace σ = []
  ∧ ∃ c t,
      http.setCookie (w σ) = [c]
      ∧ http.Name c = "auth_token"
      ∧ http.HttpOnly c = true ∧ http.Secure c = true
      ∧ http.SameSite_ c = http.SameSiteStrictMode ∧ http.Path c = "/"
      ∧ http.Value c = jwtwire.Segments t
      ∧ jwtwire.alg t = "HS256"
      ∧ jwtwire.signature t =
          jwtwire.hmac jwtwire.SHA256 (default "" (env !! "JWT_SECRET"))
                       (jwtwire.signingString t)
      ∧ jwtwire.claims t !! "app" = Some (JStr "tshawytscha-ai")
      ∧ jwtwire.claims t !! "exp" = Some (JNum (now + 2592000))
      ∧ dom (jwtwire.claims t) = ({["app"; "exp"]} : gset string).
Proof.
  cbv zeta. rewrite init_issues. cbv [w trace http.status http.body http.setCookie].
  split; [reflexivity|]. split; [reflexivity|]. split; [reflexivity|].
  exists (issuedCookie env now), (issuedCredential env now).
  do 9 (split; [reflexivity|]).
  cbv [issuedCredential issuedClaims jwtwire.claims].
  split; [apply lookup_insert_eq|].
  split; [rewrite lookup_insert_ne by discriminate; apply lookup_insert_eq|].
  rewrite !dom_insert_L, dom_empty_L. set_solver.
Qed.

(** X10: a credential of the issue operation is good for 30 days and no
    longer: presented under the same secret at time now', it is let through
    exactly when now' is before the issue time plus 2592000 s (for an
    expiry other than the timestamp 0, which the validator reads as no
    expiry). *)
Theorem issued_valid_until {mac : jwtwire.HMAC} r0 r env now now' :
  now + 2592000 ≠ 0 →
  let r' := carrying (http.setCookie (w (serve initHandler r0 env now))) r in
  letThrough r' env now' ↔ now' < now + 2592000.
Proof.
  intros Hz. cbv zeta. rewrite init_issues. cbv [w http.setCookie].
  rewrite letThrough_iff. rewrite carrying_issued_cookie. split.
  - intros (c & Hc & Hp). injection Hc as <-.
    apply parses_spec in Hp. destruct Hp as (_ & Hexp & _).
    unfold expiryAllows, issuedCredential, issuedClaims in Hexp.
    cbv [jwtwire.claims] in Hexp.
    rewrite lookup_insert_ne in Hexp by discriminate.
    rewrite lookup_insert_eq in Hexp. lia.
  - intros Hlt. exists (issuedCredential env now). split; [reflexivity|].
    apply issued_parses, Hlt.
Qed.

Lemma issued_valid_until_expired :
  ¬ letThrough (mac := sampleMAC)
      (carrying (http.setCookie
                   (w (serve (initHandler (mac := sampleMAC)) req_hello env_secret 1000)))
                req_get)
      env_secret 2593000.
Proof.
  intros H.
  apply (proj1 (issued_valid_until (mac := sampleMAC) req_hello req_get env_secret
                  1000 2593000 ltac:(lia))) in H.
  lia.
Defined.

(** X12: with the verify operation in front of the chat handler, the
    provider is called exactly when the credential is let through and the
    request passes the relay's validations; a refused request causes no
    provider call, no read of the body and no log record. *)
Theorem gated_chat_calls_provider_iff {mac : jwtwire.HMAC} s r env now :
  let σ := serve (authMiddleware (chatHandler s)) r env now in
  (providerCalls (trace σ) ≠ [] ↔ letThrough r env now ∧ passesValidation r = true)
  ∧ (letThrough r env now ∨ trace σ = []).
Proof.
  cbv zeta.
  destruct (httpfn.Cookie "auth_token" (http.Cookies r)) as [[text|c]|] eqn:Hc.
  - rewrite (gate_opaque _ r env now text Hc). simpl. split; [|auto].
    split; [congruence|]. intros [Ha _]. apply letThrough_iff in Ha.
    destruct Ha as (c' & Hc' & _). congruence.
  - rewrite (gate_segments _ r env now c Hc).
    destruct (parses (secretOf env) now c) eqn:Hp.
    + assert (Ha : letThrough r env now) by (apply letThrough_iff; eauto).
      split; [|auto]. rewrite chat_calls_provider_iff. tauto.
    + simpl. split; [|auto]. split; [congruence|]. intros [Ha _].
      apply letThrough_iff in Ha. destruct Ha as (c' & Hc' & Hp'). congruence.
  - rewrite (gate_no_cookie _ r env now Hc). simpl. split; [|auto].
    split; [congruence|]. intros [Ha _]. apply letThrough_iff in Ha.
    destruct Ha as (c' & Hc' & _). congruence.
Qed.

Lemma gated_chat_without_cookie :
  trace (serve (authMiddleware (mac := sampleMAC) (chatHandler (NewServer stub_hi)))
               req_hello env_secret 1000) = [].
Proof.
  destruct (proj2 (gated_chat_calls_provider_iff (mac := sampleMAC) (NewServer stub_hi)
                     req_hello env_secret 1000)) as [Ha|E]; [|exact E].
  apply letThrough_iff in Ha. destruct Ha as (cr & Hc & _). discriminate Hc.
Defined.

(** X13: wrapping twice is wrapping once: the verify operation in front
    of itself behaves as a single verify operation. *)
Theorem gate_twice_is_once {mac : jwtwire.HMAC} (next : Handler) r env now :
  serve (authMiddleware (authMiddleware next)) r env now =
  serve (authMiddleware next) r env now.
Proof.
  destruct (httpfn.Cookie "auth_token" (http.Cookies r)) as [[text|c]|] eqn:Hc.
  - rewrite !(gate_opaque _ r env now text Hc). reflexivity.
  - rewrite (gate_segments (authMiddleware next) r env now c Hc).
    destruct (parses (secretOf env) now c) eqn:Hp; [reflexivity|].
    rewrite (gate_segments next r env now c Hc), Hp. reflexivity.
  - rewrite !(gate_no_cookie _ r env now Hc). reflexivity.
Qed.

(** * Beyond the claims: start-up *)

(** X15: with the provider key set, main registers the single route
    /api/chat, logs one info record and listens on the port of PORT, or on
    8080 when PORT is unset or empty. *)
Theorem main_listen_address NewClient env now :
  default "" (env !! "OPENAI_API_KEY") ≠ "" →
  ∃ addr mux t,
    main NewClient (boot env now) =
      (ListenAndServe addr mux,
       {| w := http.fresh; environ := env; clock := now; trace := t |})
    ∧ map fst mux = ["/api/chat"]
    ∧ (env !! "PORT" = None ∨ env !! "PORT" = Some "" →
       addr = ":8080"
       ∧ t = [Log InfoLevel "Backend service is listening on port 8080" None])
    ∧ (∀ p, env !! "PORT" = Some p → p ≠ "" →
       addr = ":" +:+ p
       ∧ t = [Log InfoLevel ("Backend service is listening on port " +:+ p) None]).
Proof.
  intros Hk. rewrite (main_serves NewClient env now Hk).
  eexists _, _, _. split; [reflexivity|]. split; [reflexivity|].
  unfold portOf. split.
  - intros [-> | ->]; simpl; split; reflexivity.
  - intros p -> Hp. simpl. apply String.eqb_neq in Hp. rewrite Hp. split; reflexivity.
Qed.

Lemma main_listen_address_9000 :
  (main NewClient_stub (boot env_port 0)).1 =
    ListenAndServe ":9000"
      [("/api/chat", chatHandler (NewServer (NewClient_stub "sk-test")))].
Proof.
  destruct (main_listen_address NewClient_stub env_port 0 ltac:(vm_compute; discriminate))
    as (addr & mux & t & E & _ & _ & Hp).
  destruct (Hp "9000" eq_refl ltac:(discriminate)) as [Ha _].
  rewrite E. rewrite (main_serves NewClient_stub env_port 0) in E
    by (vm_compute; discriminate).
  injection E as <- <- _. reflexivity.
Defined.

(** X16: main mounts the chat handler without the token gate: the handler
    of every route it registers never answers 401 and answers a request
    alike with and without cookies, whatever the environment holds as
    signing secret. *)
Theorem main_route_is_ungated NewClient env now :
  default "" (env !! "OPENAI_API_KEY") ≠ "" →
  ∃ addr mux,
    (main NewClient (boot env now)).1 = ListenAndServe addr mux
    ∧ ∀ path h, In (path, h) mux →
        ∀ r env' now',
          http.status (w (serve h r env' now')) ≠ Some 401
          ∧ w (serve h r env' now') = w (serve h (withCookies [] r) env' now').
Proof.
  intros Hk. rewrite (main_serves NewClient env now Hk).
  eexists _, _. split; [reflexivity|].
  intros path h [E|[]] r env' now'. injection E as _ <-.
  split.
  - destruct (chat_status_in (NewServer (NewClient (apiKeyOf env))) r env' now')
      as [H|[H|[H|H]]]; rewrite H; discriminate.
  - exact (proj1 (chat_depends_on _ r (withCookies [] r) env' env' now' now'
                    eq_refl eq_refl)).
Qed.

Lemma main_route_is_ungated_hello :
  ∃ addr mux,
    (main NewClient_stub (boot env_no_secret 0)).1 = ListenAndServe addr mux
    ∧ ∀ path h, In (path, h) mux →
        http.status (w (serve h req_hello ∅ 0)) ≠ Some 401.
Proof.
  destruct (main_route_is_ungated NewClient_stub env_no_secret 0
              ltac:(vm_compute; discriminate)) as (addr & mux & E & H).
  exists addr, mux. split; [exact E|].
  intros path h Hin. exact (proj1 (H path h Hin req_hello ∅ 0)).
Defined.
